(** * Conversational response pipeline of [backend/app/services/gemini_service.py]

  A shallow embedding of [GeminiService]: prompt composition, extraction of
  the response text from the provider payload, keyword intent detection,
  product-reference extraction and the [generate_response] pipeline with its
  exception handling, followed by the properties of the design document.

  Python [str] values are modelled by [string]; each character stands for
  one code point below 256.  Dictionaries with string keys are finite maps
  ([gmap string value]); values of type [Any] are JSON-like values. *)

From Stdlib Require Import Ascii.
From Stdlib Require String.
From Stdlib Require Import ZArith Lia.
From stdpp Require Import base option list strings gmap.

Local Open Scope Z_scope.

(** ** Python string primitives *)

Module PyStr.

Definition code (c : ascii) : N := N_of_ascii c.

(** [str.lower] on one code point: ASCII capitals and the capitals of the
    Latin-1 block move up by 32, everything else is unchanged. *)
Definition lower_char (c : ascii) : ascii :=
  let n := code c in
  if ((65 <=? n) && (n <=? 90))%N then ascii_of_N (n + 32)
  else if ((192 <=? n) && (n <=? 222) && negb (n =? 215))%N then ascii_of_N (n + 32)
  else c.

Fixpoint lower (s : string) : string :=
  match s with
  | EmptyString => EmptyString
  | String c t => String (lower_char c) (lower t)
  end.

(** [str.isspace] on one code point. *)
Definition is_space (c : ascii) : bool :=
  let n := code c in
  (((9 <=? n) && (n <=? 13)) || ((28 <=? n) && (n <=? 32))
   || (n =? 133) || (n =? 160))%N.

Fixpoint lstrip (s : string) : string :=
  match s with
  | EmptyString => EmptyString
  | String c t => if is_space c then lstrip t else s
  end.

(** Drops trailing white space: a character is kept when it is not a space
    or when something is kept after it. *)
Fixpoint rstrip (s : string) : string :=
  match s with
  | EmptyString => EmptyString
  | String c t =>
      match rstrip t with
      | EmptyString => if is_space c then EmptyString else String c EmptyString
      | r => String c r
      end
  end.

(** [s.strip()] *)
Definition strip (s : string) : string := rstrip (lstrip s).

(** [needle in hay] *)
Fixpoint contains (needle hay : string) : bool :=
  String.prefix needle hay
  || match hay with
     | EmptyString => false
     | String _ t => contains needle t
     end.

(** [hay.find(needle)]: position of the first occurrence. *)
Fixpoint find (needle hay : string) : option nat :=
  if String.prefix needle hay then Some 0%nat
  else match hay with
       | EmptyString => None
       | String _ t => S <$> find needle t
       end.

(** [bool(s)] *)
Definition nonempty (s : string) : bool :=
  match s with EmptyString => false | String _ _ => true end.

(** [s[:n]] *)
Fixpoint take (n : nat) (s : string) : string :=
  match n, s with
  | S m, String c t => String c (take m t)
  | _, _ => EmptyString
  end.

(** [sep.join(parts)] *)
Definition join (sep : string) (parts : list string) : string :=
  String.concat sep parts.

(** [any(kw in text for kw in keywords)] *)
Definition any_in (keywords : list string) (text : string) : bool :=
  existsb (fun kw => contains kw text) keywords.

Definition newline : string := String (ascii_of_N 10) EmptyString.

End PyStr.

(** ** Intent labels ([app/models/conversation.py]) *)

Module MessageIntent.
Definition PRODUCT_INQUIRY : string := "product_inquiry".
Definition ORDER_LOOKUP : string := "order_lookup".
Definition GENERAL_QUESTION : string := "general_question".
Definition COMPLAINT : string := "complaint".
Definition PRAISE : string := "praise".
Definition SHIPPING_QUESTION : string := "shipping_question".
Definition RETURN_REQUEST : string := "return_request".
Definition UNKNOWN : string := "unknown".
End MessageIntent.

(** ** Values of type [Any] and the exceptions they raise *)

(** A JSON-like value, as produced by [response.json()] or stored in a
  database row.  A float is kept as a fraction. *)
#[warning="-register-all"]
Inductive value :=
| VNone
| VBool (b : bool)
| VInt (n : Z)
| VFloat (num : Z) (den : positive)
| VStr (s : string)
| VList (items : list value)
| VDict (entries : gmap string value).

(** Exceptions carry the text that [str(e)] yields.  [CancelledError] is
    [asyncio.CancelledError], raised at an [await] when the running task is
    cancelled: it derives from [BaseException] and is the one exception here
    that a handler [except Exception] does not catch. *)
Inductive exn :=
| ValueError (msg : string)
| KeyError (msg : string)
| IndexError (msg : string)
| TypeError (msg : string)
| AttributeError (msg : string)
| OverflowError (msg : string)
| OtherError (msg : string)
| ExternalAPIException (message : string) (details : gmap string value)
| CancelledError.

Inductive result (A : Type) :=
| Ok (a : A)
| Raise (e : exn).
Arguments Ok {A} a.
Arguments Raise {A} e.

#[export] Instance result_ret : MRet result := fun A a => Ok a.
#[export] Instance result_fmap : FMap result := fun A B f m =>
  match m with
  | Ok a => Ok (f a)
  | Raise e => Raise e
  end.
#[export] Instance result_bind : MBind result := fun A B f m =>
match m with
| Ok a => f a
| Raise e => Raise e
end.

Module Py.

Definition str_exn (e : exn) : string :=
  match e with
  | ValueError m | KeyError m | IndexError m | TypeError m
  | AttributeError m | OverflowError m | OtherError m => m
  | ExternalAPIException m _ => m
  | CancelledError => ""
  end.

(** [isinstance(e, Exception)]: what [except Exception] catches. *)
Definition is_exception (e : exn) : bool :=
  match e with
  | CancelledError => false
  | _ => true
  end.

Definition type_name (v : value) : string :=
  match v with
  | VNone => "NoneType"
  | VBool _ => "bool"
  | VInt _ => "int"
  | VFloat _ _ => "float"
  | VStr _ => "str"
  | VList _ => "list"
  | VDict _ => "dict"
  end.

Definition no_attribute (v : value) (attr : string) : exn :=
  AttributeError ("'" +:+ type_name v +:+ "' object has no attribute '" +:+ attr +:+ "'").

Definition not_subscriptable (v : value) : exn :=
  TypeError ("'" +:+ type_name v +:+ "' object is not subscriptable").

(** [bool(v)] *)
Definition truthy (v : value) : bool :=
  match v with
  | VNone => false
  | VBool b => b
  | VInt n => negb (n =? 0)
  | VFloat n _ => negb (n =? 0)
  | VStr s => PyStr.nonempty s
  | VList l => match l with [] => false | _ :: _ => true end
  | VDict d => match map_to_list d with [] => false | _ :: _ => true end
  end.

(** [d.get(key, default)] on a dictionary *)
Definition dict_get (d : gmap string value) (key : string) (dflt : value) : value :=
  default dflt (d !! key).

(** [d[key]] on a dictionary *)
Definition dict_item (d : gmap string value) (key : string) : result value :=
  match d !! key with
  | Some v => Ok v
  | None => Raise (KeyError ("'" +:+ key +:+ "'"))
  end.

(** [v.get(key, default)] on any value: only dictionaries have [get]. *)
Definition get (v : value) (key : string) (dflt : value) : result value :=
  match v with
  | VDict d => Ok (dict_get d key dflt)
  | _ => Raise (no_attribute v "get")
  end.

(** [v[0]] on any value *)
Definition item0 (v : value) : result value :=
  match v with
  | VList (x :: _) => Ok x
  | VList [] => Raise (IndexError "list index out of range")
  | VStr (String c _) => Ok (VStr (String c EmptyString))
  | VStr EmptyString => Raise (IndexError "string index out of range")
  | VDict _ => Raise (KeyError "0")
  | _ => Raise (not_subscriptable v)
  end.

(** [float(n)] of an [int]: the nearest double, ties going to the even
    significand.  A double has a significand of 53 bits, so of a longer
    integer only the leading 53 bits are kept; a result of 2^1024 or more is
    beyond the range of a double and raises. *)
Definition float_of_int (n : Z) : result value :=
  let a := Z.abs n in
  let shift := Z.log2 a + 1 - 53 in
  if shift <=? 0 then Ok (VFloat n 1)
  else
    let q := Z.shiftr a shift in
    let r := Z.land a (Z.ones shift) in
    let half := Z.shiftl 1 (shift - 1) in
    let q := if (half <? r) || ((r =? half) && Z.odd q) then q + 1 else q in
    let m := Z.shiftl q shift in
    if 1024 <=? Z.log2 m then Raise (OverflowError "int too large to convert to float")
    else Ok (VFloat (Z.sgn n * m) 1).

(** [v.strip()] and [v.lower()]: only strings have these methods. *)
Definition strip (v : value) : result string :=
  match v with
  | VStr s => Ok (PyStr.strip s)
  | _ => Raise (no_attribute v "strip")
  end.

Definition lower (v : value) : result string :=
  match v with
  | VStr s => Ok (PyStr.lower s)
  | _ => Raise (no_attribute v "lower")
  end.

End Py.

Module GeminiService.

Definition order_keywords : list string :=
  ["order"; "tracking"; "track"; "delivery"; "shipped"; "where is"].

Definition product_keywords : list string :=
  ["product"; "buy"; "purchase"; "price"; "cost"; "sell"; "have"].

Definition return_keywords : list string :=
  ["return"; "refund"; "exchange"; "cancel"].

Definition shipping_keywords : list string :=
  ["shipping"; "ship"; "deliver"; "delivery time"].

Definition _detect_intent (customer_message ai_response : string) : string :=
  let message_lower := PyStr.lower customer_message in
  if PyStr.any_in order_keywords message_lower then MessageIntent.ORDER_LOOKUP
  else if PyStr.any_in product_keywords message_lower then MessageIntent.PRODUCT_INQUIRY
  else if PyStr.any_in return_keywords message_lower then MessageIntent.RETURN_REQUEST
  else if PyStr.any_in shipping_keywords message_lower then MessageIntent.SHIPPING_QUESTION
  else MessageIntent.GENERAL_QUESTION.

Definition apology : string :=
  "I apologize, but I couldn't generate a proper response. Please try again.".

(** The body of the [try] block of [_extract_response_text]. *)
Definition extract_response_text_try (response_data : value) : result string :=
  candidates ← Py.get response_data "candidates" (VList []);
  if negb (Py.truthy candidates) then Raise (ValueError "No candidates in response")
  else
    first ← Py.item0 candidates;
    content ← Py.get first "content" (VDict ∅);
    parts ← Py.get content "parts" (VList []);
    if negb (Py.truthy parts) then Raise (ValueError "No parts in response")
    else
      part ← Py.item0 parts;
      text ← Py.get part "text" (VStr "");
      Py.strip text.

(** [except Exception]: the [try] block awaits nothing and raises only
    [Exception]s; each is logged and replaced by the apology. *)
Definition _extract_response_text (response_data : value) : string :=
  match extract_response_text_try response_data with
  | Ok text => text
  | Raise _ => apology
  end.

(** The [for] loop of [_extract_product_references], threading
    [referenced_ids]. *)
Fixpoint collect_references (response_lower : string)
    (products : list (gmap string value)) (referenced_ids : list value)
    : result (list value) :=
  match products with
  | [] => Ok referenced_ids
  | product :: rest =>
      product_name ← Py.lower (Py.dict_get product "name" (VStr ""));
      if PyStr.nonempty product_name && PyStr.contains product_name response_lower
      then
        id ← Py.dict_item product "id";
        collect_references response_lower rest (referenced_ids ++ [id])
      else collect_references response_lower rest referenced_ids
  end.

Definition _extract_product_references (ai_response : string)
    (products : list (gmap string value)) : result (list value) :=
  let response_lower := PyStr.lower ai_response in
  referenced_ids ← collect_references response_lower products [];
  Ok (take 5 referenced_ids).

End GeminiService.

(** ** The pipeline and its collaborators *)

(** What [await client.post] followed by [raise_for_status] and
    [response.json()] can do inside [_call_gemini_api]: a response whose
    status is accepted, with its decoded body or the exception that decoding
    raises; [httpx.HTTPStatusError]; [httpx.TimeoutException]; or any other
    exception [e], among them [CancelledError] when the task is cancelled
    while the request is awaited. *)
Inductive http_outcome :=
  | HttpReturned (status_code : Z) (json : result value)
  | HttpStatusError (status_code : Z) (text : string)
  | HttpTimeout
  | HttpFailure (e : exn).

(** The collaborators of one invocation: the database, the provider (as a
    function of the prompt it is sent) and the clock reading
    [int((time.time() - start_time) * 1000)] taken before returning. *)
Record world := World {
  get_user_by_id : string → option (gmap string value);
  get_products : string → nat → list (gmap string value);
  post : string → http_outcome;
  elapsed_ms : Z
}.

(** The dictionary built by [_build_context]; it always has these three keys,
    so the defaults of the later [context.get] calls are never used. *)
Record context := Context {
  store_name : value;
  ai_tone : value;
  products : list (gmap string value)
}.

(** The dictionary returned by [generate_response]. *)
Record pipeline_result := PipelineResult {
  ai_response : string;
  intent_detected : string;
  products_referenced : list value;
  response_time_ms : Z
}.

(** [ExternalAPIException.__init__] of [app/utils/error_handler.py] *)
Definition new_ExternalAPIException (message : string) (service : option string)
    (details : option (gmap string value)) : exn :=
  let error_details := default ∅ details in
  let error_details :=
    match service with
    | Some s => if PyStr.nonempty s then <["service" := VStr s]> error_details
                else error_details
    | None => error_details
    end in
  ExternalAPIException message error_details.

Module Pipeline.
Section WithRuntime.

(** [str(v)] of a value that is not a string, as the interpreter renders it
    inside an f-string. *)
Variable render : value → string.

Definition format (v : value) : string :=
  match v with
  | VStr s => s
  | _ => render v
  end.

Definition _build_context (w : world) (user_id : string) : result context :=
  match get_user_by_id w user_id with
  | Some user =>
      if Py.truthy (VDict user) then
        Ok {| store_name := Py.dict_get user "store_name" (VStr "our store");
              ai_tone := Py.dict_get user "ai_tone" (VStr "friendly");
              products := get_products w user_id 100 |}
      else Raise (ValueError ("User " +:+ user_id +:+ " not found"))
  | None => Raise (ValueError ("User " +:+ user_id +:+ " not found"))
  end.

Definition friendly_instruction : string :=
  "Be warm, welcoming, and conversational. Use a friendly tone.".

Definition tone_instructions : gmap string string :=
  {[ "friendly" := friendly_instruction;
     "professional" := "Be polite, clear, and professional. Maintain a business-like tone.";
     "casual" := "Be relaxed and casual. Use simple language and feel approachable.";
     "energetic" := "Be enthusiastic and upbeat! Show excitement about products." ]}.

(** [tone_instructions.get(ai_tone, tone_instructions["friendly"])]: a list or
    a dictionary cannot be hashed. *)
Definition tone_instruction_for (tone : value) : result string :=
  match tone with
  | VStr s => Ok (default friendly_instruction (tone_instructions !! s))
  | VList _ | VDict _ =>
      Raise (TypeError ("unhashable type: '" +:+ Py.type_name tone +:+ "'"))
  | _ => Ok friendly_instruction
  end.

(** [v[:100]] *)
Definition slice100 (v : value) : result value :=
  match v with
  | VStr s => Ok (VStr (PyStr.take 100 s))
  | VList l => Ok (VList (take 100 l))
  | VDict _ => Raise (TypeError "unhashable type: 'slice'")  (* [KeyError] from Python 3.12 on *)
  | _ => Raise (Py.not_subscriptable v)
  end.

Definition product_line (p : gmap string value) : result string :=
  name ← Py.dict_item p "name";
  price ← Py.dict_item p "price";
  description ← slice100 (Py.dict_get p "description" (VStr "No description"));
  Ok ("- " +:+ format name +:+ " ($" +:+ format price +:+ ") - " +:+ format description).

Definition _build_system_prompt (user_id : string) (ctx : context) : result string :=
  tone_instruction ← tone_instruction_for (ai_tone ctx);
  product_list ←
    match products ctx with
    | [] => Ok "No products available yet."
    | _ :: _ => PyStr.join PyStr.newline <$> mapM product_line (take 20 (products ctx))
    end;
  Ok (PyStr.join PyStr.newline
        [ "You are an AI customer service assistant for " +:+ format (store_name ctx) +:+ ".";
          "";
          "TONE: " +:+ tone_instruction;
          "";
          "CAPABILITIES:";
          "- Answer product questions";
          "- Help customers find products";
          "- Provide order status information";
          "- Handle general inquiries";
          "";
          "PRODUCT CATALOG:";
          product_list;
          "";
          "INSTRUCTIONS:";
          "1. If asked about products, recommend relevant items from the catalog";
          "2. If asked about orders, acknowledge and explain you'll look it up";
          "3. Be helpful and answer questions based on available information";
          "4. If you don't know something, say so politely";
          "5. Keep responses concise (2-3 paragraphs max)";
          "6. When mentioning a product, include the product name";
          "";
          "IMPORTANT: When recommending products, use their exact names from the catalog above.";
          "" ]).

(** [conversation_history[-5:]] *)
Definition last5 {A} (l : list A) : list A := drop (length l - 5)%nat l.

Definition history_lines (msg : gmap string value) : list string :=
  [ "Customer: " +:+ format (Py.dict_get msg "customer_message" (VStr ""));
    "Assistant: " +:+ format (Py.dict_get msg "ai_response" (VStr "")) ].

Definition _build_prompt (customer_message system_prompt : string)
    (conversation_history : option (list (gmap string value))) : string :=
  let prompt_parts := [system_prompt] in
  let prompt_parts :=
    match conversation_history with
    | Some (m :: ms) =>
        prompt_parts ++ [PyStr.newline +:+ "CONVERSATION HISTORY:"]
                     ++ concat (history_lines <$> last5 (m :: ms))
    | _ => prompt_parts
    end in
  let prompt_parts :=
    prompt_parts ++ [PyStr.newline +:+ "Customer: " +:+ customer_message] in
  let prompt_parts := prompt_parts ++ ["Assistant:"] in
  PyStr.join PyStr.newline prompt_parts.

Definition _call_gemini_api (w : world) (prompt : string) : result value :=
  match post w prompt with
  | HttpReturned _ (Ok data) => Ok data
  | HttpStatusError status_code _ =>
      Raise (new_ExternalAPIException "Gemini API returned an error" (Some "gemini")
               (Some {[ "status_code" := VInt status_code ]}))
  | HttpTimeout =>
      Raise (new_ExternalAPIException "Gemini API request timed out" (Some "gemini") None)
  | HttpReturned _ (Raise e) | HttpFailure e =>
      if Py.is_exception e
      then Raise (new_ExternalAPIException "Failed to call Gemini API" (Some "gemini")
                    (Some {[ "error" := VStr (Py.str_exn e) ]}))
      else Raise e
  end.

(** The transcript sent to the provider: the first three steps of
    [generate_response]. *)
Definition transcript (w : world) (user_id customer_message : string)
    (conversation_history : option (list (gmap string value)))
    : result (context * string) :=
  ctx ← _build_context w user_id;
  system_prompt ← _build_system_prompt user_id ctx;
  Ok (ctx, _build_prompt customer_message system_prompt conversation_history).

(** The body of the [try] block of [generate_response]. *)
Definition generate_response_try (w : world) (user_id customer_message : string)
    (conversation_history : option (list (gmap string value)))
    : result pipeline_result :=
  '(ctx, prompt) ← transcript w user_id customer_message conversation_history;
  response_data ← _call_gemini_api w prompt;
  let ai_response := GeminiService._extract_response_text response_data in
  let intent := GeminiService._detect_intent customer_message ai_response in
  product_ids ← GeminiService._extract_product_references ai_response (products ctx);
  Ok {| ai_response := ai_response;
        intent_detected := intent;
        products_referenced := product_ids;
        response_time_ms := elapsed_ms w |}.

(** [except Exception as e]: whatever was raised is wrapped. *)
Definition generate_response (w : world) (user_id customer_message : string)
    (conversation_history : option (list (gmap string value)))
    : result pipeline_result :=
  match generate_response_try w user_id customer_message conversation_history with
  | Ok r => Ok r
  | Raise e =>
      if Py.is_exception e
      then Raise (new_ExternalAPIException "Failed to generate AI response" (Some "gemini")
                    (Some {[ "error" := VStr (Py.str_exn e) ]}))
      else Raise e
  end.

End WithRuntime.
End Pipeline.

(** ** Vocabulary of the design document *)

Module Design.

(** A step of a path into a provider payload: a key of an object or a
    position of an array. *)
Inductive step :=
  | Key (k : string)
  | Index (n : nat).

Definition follow (st : step) (v : value) : option value :=
  match st, v with
  | Key k, VDict d => d !! k
  | Index n, VList l => l !! n
  | _, _ => None
  end.

Fixpoint json_path (path : list step) (v : value) : option value :=
  match path with
  | [] => Some v
  | st :: rest => follow st v ≫= json_path rest
  end.

(** [candidates[0].content.parts[0]] *)
Definition first_part_path : list step :=
  [Key "candidates"; Index 0; Key "content"; Key "parts"; Index 0].

Definition first_part (payload : value) : option value :=
  json_path first_part_path payload.

(** The expected nested text [candidates[0].content.parts[0].text] of a
    well-formed payload. *)
Definition nested_text (payload : value) : option string :=
  match json_path (first_part_path ++ [Key "text"]) payload with
  | Some (VStr t) => Some t
  | _ => None
  end.

(** The first part is an object that has no [text] entry at all. *)
Definition textless_first_part (payload : value) : bool :=
  match first_part payload with
  | Some (VDict part) =>
      match part !! "text" with
      | None => true
      | Some _ => false
      end
  | _ => false
  end.

(** Where the name of a catalog item is first mentioned in a lower-cased
    text; [None] when the item has no non-empty name or is not mentioned. *)
Definition position_in (text_lower : string) (item : gmap string value) : option nat :=
  match Py.dict_get item "name" (VStr "") with
  | VStr name =>
      if PyStr.nonempty (PyStr.lower name)
      then PyStr.find (PyStr.lower name) text_lower
      else None
  | _ => None
  end.

Definition mention_position (response : string) (item : gmap string value) : option nat :=
  position_in (PyStr.lower response) item.

(** The items of the catalog that the response mentions, in catalog order. *)
Definition mentioned_items (response : string) (catalog : list (gmap string value))
    : list (gmap string value) :=
  filter (λ item, is_Some (mention_position response item)) catalog.

Fixpoint insert_by_position (x : nat * value) (l : list (nat * value))
    : list (nat * value) :=
  match l with
  | [] => [x]
  | y :: t => if (x.1 <? y.1)%nat then x :: l else y :: insert_by_position x t
  end.

(** Reference extraction as the testable property words it: the ids of the
    mentioned items ordered by the position of their first mention, cut
    after five. *)
Definition refs_by_first_mention (response : string)
    (catalog : list (gmap string value)) : list value :=
  let mentions :=
    omap (λ item, pos ← mention_position response item;
                  id ← item !! "id";
                  Some (pos, id)) catalog in
  take 5 (foldr insert_by_position [] mentions).*2.

(** A catalog item as the data model has it: an id and a name that is a
    string. *)
Definition catalog_item (item : gmap string value) : Prop :=
  is_Some (item !! "id") ∧ ∃ name, item !! "name" = Some (VStr name).

Definition intent_labels : list string :=
  [ MessageIntent.PRODUCT_INQUIRY; MessageIntent.ORDER_LOOKUP;
    MessageIntent.RETURN_REQUEST; MessageIntent.SHIPPING_QUESTION;
    MessageIntent.GENERAL_QUESTION ].

Definition all_keywords : list string :=
  GeminiService.order_keywords ++ GeminiService.product_keywords
  ++ GeminiService.return_keywords ++ GeminiService.shipping_keywords.

End Design.

(** ** Sample inputs *)

Module Sample.

Definition payload_of_part (part : value) : value :=
  VDict {[ "candidates" := VList [VDict {[ "content" :=
             VDict {[ "parts" := VList [part] ]} ]}] ]}.

Definition payload_ok : value :=
  payload_of_part (VDict {[ "text" := VStr " This is a test response " ]}).

Definition payload_blank : value :=
  payload_of_part (VDict {[ "text" := VStr "   " ]}).

Definition payload_textless : value :=
  payload_of_part (VDict ∅).

Definition payload_no_candidates : value :=
  VDict {[ "promptFeedback" := VDict {[ "blockReason" := VStr "SAFETY" ]} ]}.

Definition payload_no_parts : value :=
  VDict {[ "candidates" := VList [VDict {[ "content" := VDict {[ "parts" := VList [] ]} ]}] ]}.

Definition payload_null_text : value :=
  payload_of_part (VDict {[ "text" := VNone ]}).

Definition product (id name : string) : gmap string value :=
  {[ "id" := VStr id; "name" := VStr name; "price" := VFloat 1999 100 ]}.

Definition headphones : gmap string value := product "123" "Wireless Headphones".
Definition watch : gmap string value := product "456" "Smart Watch".

Definition mug : gmap string value := product "p1" "Mug".
Definition cap : gmap string value := product "p2" "Cap".
Definition unnamed : gmap string value := product "p3" "".

Definition seven : list (gmap string value) :=
  [ product "a" "Alpha"; product "b" "Bravo"; product "c" "Charlie";
    product "d" "Delta"; product "e" "Echo"; product "f" "Foxtrot";
    product "g" "Golf" ].

Definition cap_and_mug : string := "Our Cap and Mug".

Definition six_mentions : string :=
  "Try Golf, Foxtrot, Echo, Delta, Charlie or Bravo.".

Definition render (v : value) : string := "<" +:+ Py.type_name v +:+ ">".

Definition store : world :=
  {| get_user_by_id := λ _, Some {[ "store_name" := VStr "S1"; "ai_tone" := VStr "casual" ]};
     get_products := λ _ _, [headphones];
     post := λ _, HttpTimeout;
     elapsed_ms := 15000 |}.

Definition turn (q a : string) : gmap string value :=
  {[ "customer_message" := VStr q; "ai_response" := VStr a ]}.

End Sample.

(** ** The database wrapper ([app/database.py]) *)

(** What the Supabase client answers to an executed query: the [data] of the
    result, or the exception it raises.  Equality filters are given as a
    dictionary.  The client is synchronous: nothing is awaited inside a call,
    so no cancellation is delivered there, and what a call raises is an
    [Exception]. *)
Record client := Client {
  select_eq : string → string → gmap string value → result (list (gmap string value));
  insert_row : string → gmap string value → result (list (gmap string value));
  update_eq : string → gmap string value → gmap string value
              → result (list (gmap string value));
  delete_eq : string → gmap string value → result (list (gmap string value));
  select_range : string → string → Z → Z → result (list (gmap string value));
  select_recent : string → string → nat → result (list (gmap string value))
}.

(** A write sent to the client. *)
Inductive write :=
  | Inserted (table : string) (data : gmap string value)
  | Updated (table : string) (data filters : gmap string value)
  | Deleted (table : string) (filters : gmap string value).

(** Code that may raise and that sends writes to the database: the writes
    sent so far are threaded through. *)
Record io (A : Type) := IO { run : list write → list write * result A }.
Arguments IO {A} run.
Arguments run {A} _ _.

#[export] Instance io_ret : MRet io := fun A a => IO (λ log, (log, Ok a)).
#[export] Instance io_bind : MBind io := fun A B f m =>
  IO (λ log, match run m log with
             | (log', Ok a) => run (f a) log'
             | (log', Raise e) => (log', Raise e)
             end).

Module Io.

Definition lift {A} (r : result A) : io A := IO (λ log, (log, r)).

Definition send {A} (w : write) (answer : result A) : io A :=
  IO (λ log, (log ++ [w], answer)).

(** [try: m / except Exception: handler] *)
Definition catch {A} (m : io A) (handler : exn → A) : io A :=
  IO (λ log, match run m log with
             | (log', Ok a) => (log', Ok a)
             | (log', Raise e) =>
                 (log', if Py.is_exception e then Ok (handler e) else Raise e)
             end).

(** The outcome of code that is run from an empty log. *)
Definition outcome {A} (m : io A) : result A := (run m []).2.

Definition writes {A} (m : io A) : list write := (run m []).1.

End Io.

Module Database.

(** [not d] for an optional dictionary argument *)
Definition missing (d : option (gmap string value)) : bool :=
  match d with
  | Some d => negb (Py.truthy (VDict d))
  | None => true
  end.

Definition execute_query (c : client) (table operation : string)
    (filters data : option (gmap string value)) (columns : string)
    : io (list (gmap string value)) :=
  if String.eqb operation "select" then
    Io.lift (select_eq c table columns (default ∅ filters))
  else if String.eqb operation "insert" then
    if missing data then Io.lift (Raise (ValueError "Data required for insert operation"))
    else Io.send (Inserted table (default ∅ data)) (insert_row c table (default ∅ data))
  else if String.eqb operation "update" then
    if missing data || missing filters
    then Io.lift (Raise (ValueError "Data and filters required for update"))
    else Io.send (Updated table (default ∅ data) (default ∅ filters))
                 (update_eq c table (default ∅ data) (default ∅ filters))
  else if String.eqb operation "delete" then
    if missing filters
    then Io.lift (Raise (ValueError "Filters required for delete operation"))
    else Io.send (Deleted table (default ∅ filters)) (delete_eq c table (default ∅ filters))
  else Io.lift (Raise (ValueError ("Unknown operation: " +:+ operation))).

(** [except Exception: return None] around the query, which is synchronous. *)
Definition get_user_by_id (c : client) (user_id : string) : option (gmap string value) :=
  match Io.outcome (execute_query c "users" "select"
                      (Some {[ "id" := VStr user_id ]}) None "*") with
  | Ok (user :: _) => Some user
  | Ok [] => None
  | Raise _ => None
  end.

(** [result.data if result.data else []], and [except Exception: return []]
    around the query, which is synchronous. *)
Definition get_products (c : client) (user_id : string) (limit offset : Z)
    : list (gmap string value) :=
  match select_range c "products" user_id offset (offset + limit - 1) with
  | Ok rows => rows
  | Raise _ => []
  end.

End Database.

(** ** The analytics service and the chat router *)

Module EventType.
Definition QUESTION_ASKED : string := "question_asked".
End EventType.

Definition optional_str (o : option string) : value :=
  match o with
  | Some s => VStr s
  | None => VNone
  end.

Module AnalyticsService.

Definition log_event (c : client) (user_id event_type : string)
    (event_data : option (gmap string value))
    (session_id customer_identifier ip_address user_agent : option string) : io bool :=
  let data : gmap string value :=
    {[ "user_id" := VStr user_id;
       "event_type" := VStr event_type;
       "event_data" := VDict (if Database.missing event_data then ∅
                              else default ∅ event_data);
       "session_id" := optional_str session_id;
       "customer_identifier" := optional_str customer_identifier;
       "ip_address" := optional_str ip_address;
       "user_agent" := optional_str user_agent ]} in
  Io.catch (_ ← Database.execute_query c "analytics_events" "insert" None (Some data) "*";
            mret true)
           (λ _, false).

End AnalyticsService.

(** The request body, already validated by the framework. *)
Module ChatMessageRequest.
Record t := Make {
  message : string;
  customer_identifier : option string;
  session_id : option string
}.
End ChatMessageRequest.

Module ChatMessageResponse.
Record t := Make {
  success : bool;
  data : gmap string value;
  message : option string;
  timestamp : string
}.
End ChatMessageResponse.

(** What one request to the router can observe: the database client, the
    provider, the measured response time and the time stamp
    [datetime.utcnow().isoformat()]. *)
Record env := Env {
  db : client;
  provider : string → http_outcome;
  clock_ms : Z;
  utcnow : string
}.

(** The collaborators of [GeminiService(db)] within a request. *)
Definition world_of (e : env) : world :=
  {| get_user_by_id := Database.get_user_by_id (db e);
     get_products := λ user_id limit, Database.get_products (db e) user_id (Z.of_nat limit) 0;
     post := provider e;
     elapsed_ms := clock_ms e |}.

Module ChatRouter.
Section WithRuntime.

Variable render : value → string.

(** [float(s)] of a string, as the interpreter parses it. *)
Variable parse_float : string → option (Z * positive).

(** [float(v)] *)
Definition float (v : value) : result value :=
  match v with
  | VInt n => Py.float_of_int n
  | VFloat n d => Ok (VFloat n d)
  | VBool b => Ok (VFloat (if b then 1 else 0) 1)
  | VStr s =>
      match parse_float s with
      | Some (n, d) => Ok (VFloat n d)
      | None => Raise (ValueError ("could not convert string to float: '" +:+ s +:+ "'"))
      end
  | _ => Raise (TypeError ("float() argument must be a string or a real number, not '"
                           +:+ Py.type_name v +:+ "'"))
  end.

(** [v[:200]] *)
Definition slice200 (v : value) : result value :=
  match v with
  | VStr s => Ok (VStr (PyStr.take 200 s))
  | VList l => Ok (VList (take 200 l))
  | VDict _ => Raise (TypeError "unhashable type: 'slice'")
  | _ => Raise (Py.not_subscriptable v)
  end.

(** The dictionary appended to [products] for one referenced product. *)
Definition product_card (product : gmap string value) : result (gmap string value) :=
  id ← Py.dict_item product "id";
  name ← Py.dict_item product "name";
  description ← slice200 (Py.dict_get product "description" (VStr ""));
  price ← Py.dict_item product "price" ≫= float;
  Ok {[ "id" := id;
        "name" := name;
        "description" := description;
        "price" := price;
        "category" := Py.dict_get product "category" VNone;
        "image_url" := Py.dict_get product "image_url" VNone ]}.

(** The loop over [ai_result["products_referenced"][:3]], threading
    [products]. *)
Fixpoint collect_cards (c : client) (product_ids : list value) (products : list value)
    : io (list value) :=
  match product_ids with
  | [] => mret products
  | product_id :: rest =>
      product_result ← Database.execute_query c "products" "select"
                         (Some {[ "id" := product_id ]}) None "*";
      match product_result with
      | product :: _ =>
          card ← Io.lift (product_card product);
          collect_cards c rest (products ++ [VDict card])
      | [] => collect_cards c rest products
      end
  end.

(** [formatted_history]: the stored turns come newest first and are handed
    over oldest first; an empty history is handed over as [None]. *)
Definition formatted_history (conversation_history : list (gmap string value))
    : option (list (gmap string value)) :=
  match conversation_history with
  | [] => None
  | _ :: _ => Some (reverse conversation_history)
  end.

Definition conversation_data (request : ChatMessageRequest.t) (current_user_id : string)
    (conversation_history : list (gmap string value)) (ai_result : pipeline_result)
    : gmap string value :=
  {[ "user_id" := VStr current_user_id;
     "customer_identifier" := optional_str (ChatMessageRequest.customer_identifier request);
     "customer_message" := VStr (ChatMessageRequest.message request);
     "ai_response" := VStr (ai_response ai_result);
     "message_count" := VInt (Z.of_nat (length conversation_history) + 1);
     "products_referenced" := VList (products_referenced ai_result);
     "intent_detected" := VStr (intent_detected ai_result);
     "response_time_ms" := VInt (response_time_ms ai_result) ]}.

Definition event_data (request : ChatMessageRequest.t) (ai_result : pipeline_result)
    : gmap string value :=
  {[ "message_length" :=
       VInt (Z.of_nat (String.length (ChatMessageRequest.message request)));
     "response_time_ms" := VInt (response_time_ms ai_result);
     "intent_detected" := VStr (intent_detected ai_result) ]}.

Definition response_data (request : ChatMessageRequest.t) (ai_result : pipeline_result)
    (conversation_id : value) (products : list value) : gmap string value :=
  {[ "id" := conversation_id;
     "customer_message" := VStr (ChatMessageRequest.message request);
     "ai_response" := VStr (ai_response ai_result);
     "products" := VList products;
     "intent_detected" := VStr (intent_detected ai_result);
     "response_time_ms" := VInt (response_time_ms ai_result) ]}.

Definition send_message (e : env) (request : ChatMessageRequest.t)
    (current_user_id : string) : io ChatMessageResponse.t :=
  conversation_history ← Io.lift (select_recent (db e) "conversations" current_user_id 5);
  ai_result ← Io.lift (Pipeline.generate_response render (world_of e) current_user_id
                         (ChatMessageRequest.message request)
                         (formatted_history conversation_history));
  conversation_result ←
    Database.execute_query (db e) "conversations" "insert" None
      (Some (conversation_data request current_user_id conversation_history ai_result)) "*";
  _ ← AnalyticsService.log_event (db e) current_user_id EventType.QUESTION_ASKED
        (Some (event_data request ai_result))
        (ChatMessageRequest.session_id request)
        (ChatMessageRequest.customer_identifier request) None None;
  products ← collect_cards (db e) (take 3 (products_referenced ai_result)) [];
  conversation_id ←
    Io.lift match conversation_result with
            | row :: _ => Py.dict_item row "id"
            | [] => Ok VNone
            end;
  mret {| ChatMessageResponse.success := true;
          ChatMessageResponse.data :=
            response_data request ai_result conversation_id products;
          ChatMessageResponse.message := None;
          ChatMessageResponse.timestamp := utcnow e +:+ "Z" |}.

End WithRuntime.
End ChatRouter.

(** ** More sample inputs *)

Module Fixture.

Definition user_row : gmap string value :=
  {[ "id" := VStr "u1"; "store_name" := VStr "S1"; "ai_tone" := VStr "casual" ]}.

Definition unpriced : gmap string value :=
  {[ "id" := VStr "p9"; "name" := VStr "Pen" ]}.

Definition nameless : gmap string value :=
  {[ "id" := VStr "p9"; "name" := VNone ]}.

Definition idless : gmap string value := {[ "name" := VStr "golf" ]}.

Definition answer : value :=
  Sample.payload_of_part (VDict {[ "text" := VStr "Yes! We have Wireless Headphones in stock." ]}).

Definition two_parts : value :=
  VDict {[ "candidates" :=
             VList [ VDict {[ "content" := VDict {[ "parts" :=
                        VList [ VDict {[ "text" := VStr "Yes." ]};
                                VDict {[ "text" := VStr " We do." ]} ] ]} ]};
                     VDict ∅ ];
           "usageMetadata" := VDict ∅ ]}.

Definition five_turns : list (gmap string value) :=
  [ Sample.turn "1" "a"; Sample.turn "2" "b"; Sample.turn "3" "c";
    Sample.turn "4" "d"; Sample.turn "5" "e" ].

(** A database with one user, two products and one stored turn. *)
Definition shop : client :=
  {| select_eq := λ table columns filters,
       if String.eqb table "users" then Ok [user_row]
       else match filters !! "id" with
            | Some (VStr "123") => Ok [Sample.headphones]
            | _ => Ok []
            end;
     insert_row := λ table data, Ok [<[ "id" := VStr "row-1" ]> data];
     update_eq := λ table data filters, Ok [];
     delete_eq := λ table filters, Ok [];
     select_range := λ table user_id first last, Ok [Sample.headphones; Sample.watch];
     select_recent := λ table user_id limit, Ok [Sample.turn "Hi" "Hello!"] |}.

(** A database that cannot be reached. *)
Definition down : client :=
  {| select_eq := λ _ _ _, Raise (OtherError "connection refused");
     insert_row := λ _ _, Raise (OtherError "connection refused");
     update_eq := λ _ _ _, Raise (OtherError "connection refused");
     delete_eq := λ _ _, Raise (OtherError "connection refused");
     select_range := λ _ _ _ _, Raise (OtherError "connection refused");
     select_recent := λ _ _ _, Raise (OtherError "connection refused") |}.

(** The shop, with a products table that cannot be read. *)
Definition shop_without_products : client :=
  {| select_eq := select_eq shop;
     insert_row := insert_row shop;
     update_eq := update_eq shop;
     delete_eq := delete_eq shop;
     select_range := λ _ _ _ _, Raise (OtherError "timeout");
     select_recent := select_recent shop |}.

Definition request : ChatMessageRequest.t :=
  {| ChatMessageRequest.message := "Do you have wireless headphones?";
     ChatMessageRequest.customer_identifier := Some "test@example.com";
     ChatMessageRequest.session_id := Some "session_123" |}.

Definition env_of (c : client) (outcome : http_outcome) : env :=
  {| db := c; provider := λ _, outcome; clock_ms := 1523; utcnow := "2025-01-01T00:00:00" |}.

Definition answering : env := env_of shop (HttpReturned 200 (Ok answer)).
Definition garbled : env := env_of shop (HttpReturned 200 (Ok Sample.payload_no_candidates)).
Definition refused : env := env_of shop (HttpStatusError 429 "quota").
Definition timing_out : env := env_of shop HttpTimeout.
Definition unreachable : env := env_of shop (HttpFailure (OtherError "connection reset")).
Definition cancelled : env := env_of shop (HttpFailure CancelledError).

Definition parse_float (s : string) : option (Z * positive) := None.

(** What the pipeline returns in the answering shop. *)
Definition answered : pipeline_result :=
  {| ai_response := "Yes! We have Wireless Headphones in stock.";
     intent_detected := "product_inquiry";
     products_referenced := [VStr "123"];
     response_time_ms := 1523 |}.

Definition shop_context : context :=
  {| store_name := VStr "S1";
     ai_tone := VStr "casual";
     products := [Sample.headphones; Sample.watch] |}.

End Fixture.

(** * Properties *)

(** ** Strings *)

Module PyStrFacts.
Import PyStr.

Lemma app_cons (c : ascii) (a b : string) : String c a +:+ b = String c (a +:+ b).
Proof. reflexivity. Qed.

Lemma app_empty_l (a : string) : "" +:+ a = a.
Proof. reflexivity. Qed.

Lemma app_assoc (a b c : string) : (a +:+ b) +:+ c = a +:+ b +:+ c.
Proof. induction a as [|x a IH]; [done |]. by rewrite !app_cons, IH. Qed.

Lemma app_empty_r (a : string) : a +:+ "" = a.
Proof. induction a as [|x a IH]; [done |]. by rewrite app_cons, IH. Qed.

Lemma prefix_empty (h : string) : String.prefix "" h = true.
Proof. by destruct h. Qed.

Lemma prefix_app (n r : string) : String.prefix n (n +:+ r) = true.
Proof.
  induction n as [|c n IH]; [apply prefix_empty |].
  rewrite app_cons. simpl. destruct (ascii_dec c c); [exact IH | done].
Qed.

Lemma prefix_split (n h : string) :
  String.prefix n h = true → ∃ r, h = n +:+ r.
Proof.
  revert h. induction n as [|c n IH]; intros h Hp.
  - by exists h.
  - destruct h as [|d h]; simpl in Hp; [done |].
    destruct (ascii_dec c d) as [->|]; [| done].
    destruct (IH _ Hp) as [r ->]. by exists r.
Qed.

Lemma contains_nil (n : string) : contains n "" = String.prefix n "" || false.
Proof. reflexivity. Qed.

Lemma contains_cons (n : string) (c : ascii) (h : string) :
  contains n (String c h) = String.prefix n (String c h) || contains n h.
Proof. reflexivity. Qed.

(** [contains] is the substring relation. *)
Lemma contains_spec (n h : string) :
  contains n h = true ↔ ∃ a b, h = a +:+ n +:+ b.
Proof.
  split.
  - induction h as [|c h IH]; intros Hc.
    + rewrite contains_nil in Hc.
      apply orb_true_iff in Hc as [Hp | ?]; [| done].
      apply prefix_split in Hp as [r ->]. by exists "", r.
    + rewrite contains_cons in Hc.
      apply orb_true_iff in Hc as [Hp | Hc].
      * apply prefix_split in Hp as [r Hr]. exists "", r. by rewrite Hr.
      * destruct (IH Hc) as (a & b & ->). by exists (String c a), b.
  - intros (a & b & ->). induction a as [|c a IH].
    + rewrite app_empty_l.
      destruct (n +:+ b) eqn:E.
      * by rewrite contains_nil, <- E, prefix_app.
      * by rewrite contains_cons, <- E, prefix_app.
    + rewrite app_cons, contains_cons, IH. apply orb_true_r.
Qed.

(** A text that contains a phrase contains every part of the phrase. *)
Lemma contains_part (x n y h : string) :
  contains (x +:+ n +:+ y) h = true → contains n h = true.
Proof.
  rewrite !contains_spec. intros (a & b & ->).
  exists (a +:+ x), (y +:+ b). by rewrite !app_assoc.
Qed.

Lemma find_contains (n h : string) :
  is_Some (find n h) ↔ contains n h = true.
Proof.
  induction h as [|c h IH].
  - rewrite contains_nil. unfold find.
    destruct (String.prefix n ""); [by split; eauto |].
    split; [by intros [? [=]] | done].
  - rewrite contains_cons. change (find n (String c h)) with
      (if String.prefix n (String c h) then Some 0%nat else S <$> find n h).
    destruct (String.prefix n (String c h)); [by split; eauto |].
    rewrite <- IH. by rewrite fmap_is_Some.
Qed.

Lemma lower_length (s : string) : String.length (lower s) = String.length s.
Proof. induction s as [|c s IH]; simpl; [done | by rewrite IH]. Qed.

Lemma nonempty_lower (s : string) : nonempty (lower s) = nonempty s.
Proof. by destruct s. Qed.

Lemma any_in_true (keywords : list string) (text : string) :
  any_in keywords text = true ↔ ∃ kw, kw ∈ keywords ∧ contains kw text = true.
Proof.
  unfold any_in. rewrite existsb_exists.
  split; intros (kw & Hin & Hc); exists kw; split; try done;
    by apply list_elem_of_In.
Qed.

Lemma any_in_false (keywords : list string) (text : string) :
  any_in keywords text = false ↔ ∀ kw, kw ∈ keywords → contains kw text = false.
Proof.
  rewrite <- not_true_iff_false, any_in_true. split.
  - intros Hn kw Hin. apply not_true_iff_false. intros Hc. apply Hn. by exists kw.
  - intros Hall (kw & Hin & Hc). rewrite (Hall kw Hin) in Hc. done.
Qed.

Lemma join_snoc (sep x : string) (l : list string) :
  l ≠ [] → join sep (l ++ [x]) = join sep l +:+ sep +:+ x.
Proof.
  unfold join. induction l as [|y l IH]; [done |]. intros _.
  destruct l as [|z l]; [done |].
  change (String.concat sep ((y :: z :: l) ++ [x]))
    with (y +:+ sep +:+ String.concat sep ((z :: l) ++ [x])).
  rewrite IH by done.
  change (String.concat sep (y :: z :: l))
    with (y +:+ sep +:+ String.concat sep (z :: l)).
  by rewrite !app_assoc.
Qed.

End PyStrFacts.

(** ** Intent detection *)

Module IntentFacts.
Import GeminiService.

(** C3. A message whose lower-cased text contains an order-lookup keyword is
    classified [order_lookup], whatever product, return or shipping keywords
    it also contains. *)
Theorem order_keyword_wins (customer_message ai_response kw : string) :
  kw ∈ order_keywords →
  PyStr.contains kw (PyStr.lower customer_message) = true →
  _detect_intent customer_message ai_response = MessageIntent.ORDER_LOOKUP.
Proof.
  intros Hin Hc. unfold _detect_intent.
  assert (PyStr.any_in order_keywords (PyStr.lower customer_message) = true) as ->; [| done].
  apply PyStrFacts.any_in_true. by exists kw.
Qed.

Lemma order_keyword_wins_witness :
  _detect_intent "Where is my ORDER? I want to buy, return and ship it" ""
  = MessageIntent.ORDER_LOOKUP.
Proof.
  apply (order_keyword_wins _ _ "order").
  - unfold order_keywords. apply list_elem_of_here.
  - vm_compute. reflexivity.
Defined.

(** C7. A message whose lower-cased text contains no keyword of the four
    sets is classified [general_question]; detection is a total function and
    its value is always one of the five labels. *)
Theorem no_keyword_general (customer_message ai_response : string) :
  ((∀ kw, kw ∈ Design.all_keywords →
          PyStr.contains kw (PyStr.lower customer_message) = false) →
   _detect_intent customer_message ai_response = MessageIntent.GENERAL_QUESTION)
  ∧ _detect_intent customer_message ai_response ∈ Design.intent_labels.
Proof.
  split.
  - intros Hno. unfold _detect_intent, Design.all_keywords in *.
    repeat match goal with
    | |- context [PyStr.any_in ?ks ?t] =>
        assert (PyStr.any_in ks t = false) as ->
          by (apply PyStrFacts.any_in_false; intros kw Hkw; apply Hno;
              rewrite !elem_of_app; auto)
    end.
    done.
  - unfold _detect_intent, Design.intent_labels.
    repeat case_match; set_solver.
Qed.

Lemma no_keyword_general_witness :
  _detect_intent "Hello there, how are you?" "" = MessageIntent.GENERAL_QUESTION.
Proof.
  apply (proj1 (no_keyword_general "Hello there, how are you?" "")).
  apply PyStrFacts.any_in_false. vm_compute. reflexivity.
Defined.

(** C9. A message whose lower-cased text contains "delivery time" contains
    "delivery", so it is classified [order_lookup] and never
    [shipping_question]. *)
Theorem delivery_time_is_order_lookup (customer_message ai_response : string) :
  PyStr.contains "delivery time" (PyStr.lower customer_message) = true →
  _detect_intent customer_message ai_response = MessageIntent.ORDER_LOOKUP
  ∧ _detect_intent customer_message ai_response ≠ MessageIntent.SHIPPING_QUESTION.
Proof.
  intros Hc.
  assert (_detect_intent customer_message ai_response = MessageIntent.ORDER_LOOKUP) as ->.
  { unfold _detect_intent.
    assert (PyStr.any_in order_keywords (PyStr.lower customer_message) = true) as ->; [| done].
    apply PyStrFacts.any_in_true. exists "delivery". split.
    - unfold order_keywords. set_solver.
    - by apply (PyStrFacts.contains_part "" "delivery" " time"). }
  split; [done | discriminate].
Qed.

Lemma delivery_time_is_order_lookup_witness :
  _detect_intent "What is the Delivery Time?" "" = MessageIntent.ORDER_LOOKUP.
Proof.
  apply (delivery_time_is_order_lookup "What is the Delivery Time?" "").
  vm_compute. reflexivity.
Defined.

End IntentFacts.

(** ** Extraction of the response text *)

Module ResponseTextFacts.
Import GeminiService Design.

Tactic Notation "by_shape" constr(v) "as" ident(x) :=
  let n := fresh "n" in
  let d := fresh "d" in
  destruct v as [ | [|] | n | n ? | [|? ?] | [|x ?] | d ];
  cbn; eauto;
  try (destruct (Z.eqb n 0); cbn; eauto; fail);
  try (destruct (map_to_list d); cbn; eauto; fail).

(** The [try] block succeeds exactly when the path to the first part can be
    followed and the part is an object whose [text], if any, is a string. *)
Lemma extract_response_text_try_cases (response_data : value) :
  match nested_text response_data with
  | Some t => extract_response_text_try response_data = Ok (PyStr.strip t)
  | None =>
      if textless_first_part response_data
      then extract_response_text_try response_data = Ok ""
      else ∃ e, extract_response_text_try response_data = Raise e
  end.
Proof.
  unfold nested_text, textless_first_part, first_part, extract_response_text_try.
  cbn [first_part_path app json_path].
  destruct response_data as [ | | | | | | payload]; cbn; eauto.
  unfold Py.dict_get.
  destruct (payload !! "candidates") as [candidates|]; cbn; eauto.
  by_shape candidates as candidate.
  destruct candidate as [ | | | | | | candidate]; cbn; eauto.
  unfold Py.dict_get.
  destruct (candidate !! "content") as [content|]; cbn; eauto.
  destruct content as [ | | | | | | content]; cbn; eauto.
  unfold Py.dict_get.
  destruct (content !! "parts") as [parts|]; cbn; eauto.
  by_shape parts as part.
  destruct part as [ | | | | | | part]; cbn; eauto.
  unfold Py.dict_get.
  destruct (part !! "text") as [text|]; cbn; eauto.
  destruct text; cbn; eauto.
Qed.

(** The [try] block raises nothing but [Exception]s, so the handler of
    [_extract_response_text] sees every failure. *)
Lemma extract_response_text_try_raises_exception (response_data : value) (e : exn) :
  extract_response_text_try response_data = Raise e → Py.is_exception e = true.
Proof.
  unfold extract_response_text_try, Py.get, Py.item0, Py.strip, Py.no_attribute,
    Py.not_subscriptable.
  intros H.
  repeat match type of H with
         | context [match ?x with _ => _ end] => destruct x; cbn in H
         | context [if ?b then _ else _] => destruct b; cbn in H
         end;
    try discriminate H; by injection H as <-.
Qed.

(** What [_extract_response_text] returns, by the shape of the payload: the
    stripped text when the nested text is there, the empty string when the
    first part has no text entry, and the apology on every other payload. *)
Lemma response_text_cases (response_data : value) :
  match nested_text response_data with
  | Some t => _extract_response_text response_data = PyStr.strip t
  | None =>
      if textless_first_part response_data
      then _extract_response_text response_data = ""
      else _extract_response_text response_data = apology
  end
  ∧ PyStr.nonempty apology = true.
Proof.
  split; [| done].
  pose proof (extract_response_text_try_cases response_data) as H.
  unfold _extract_response_text.
  destruct (nested_text response_data); [by rewrite H |].
  destruct (textless_first_part response_data); [by rewrite H |].
  destruct H as [e ->]. done.
Qed.

(** The response text is empty on exactly two kinds of payload: those whose
    candidate text has nothing but white space, and those whose first part
    is an object without a text entry. *)
Lemma response_text_empty_iff (response_data : value) :
  PyStr.nonempty (_extract_response_text response_data) = false
  ↔ (∃ t, nested_text response_data = Some t ∧ PyStr.strip t = "")
    ∨ (nested_text response_data = None ∧ textless_first_part response_data = true).
Proof.
  destruct (response_text_cases response_data) as [H Hapology].
  assert (∀ s, PyStr.nonempty s = false ↔ s = "") as Hempty
    by (intros [|? ?]; split; done).
  destruct (nested_text response_data) as [t|].
  - rewrite H, Hempty. split.
    + intros Ht. left. by exists t.
    + by intros [(t' & [= <-] & Ht) | [? _]].
  - destruct (textless_first_part response_data).
    + rewrite H. split; [by right | done].
    + rewrite H, Hapology. split; [done |]. by intros [(? & ? & _) | [_ ?]].
Qed.

(** Off the text-less first part, a malformed payload (the expected nested
    text is absent) makes the [try] block raise; the exception is caught and
    the apology string is returned. *)
Lemma malformed_payload_apology (response_data : value) :
  nested_text response_data = None →
  textless_first_part response_data = false →
  (∃ e, extract_response_text_try response_data = Raise e)
  ∧ _extract_response_text response_data = apology.
Proof.
  intros Hnone Hpart.
  pose proof (extract_response_text_try_cases response_data) as H.
  rewrite Hnone, Hpart in H. destruct H as [e He].
  split; [by exists e |]. unfold _extract_response_text. by rewrite He.
Qed.

(** C2. The code does not keep the response text non-empty.  The payload
    [{"candidates": [{"content": {"parts": [{}]}}]}], whose first part has no
    text entry, and the payload whose candidate text is ["   "] both give the
    empty string, where the design promises a non-empty one; a padded
    candidate text is returned stripped, and a payload without candidates
    gives the apology, which is not empty. *)
Theorem response_text_can_be_empty :
  _extract_response_text Sample.payload_textless = ""
  ∧ PyStr.nonempty (_extract_response_text Sample.payload_textless) = false
  ∧ _extract_response_text Sample.payload_blank = ""
  ∧ PyStr.nonempty (_extract_response_text Sample.payload_blank) = false
  ∧ _extract_response_text Sample.payload_ok = "This is a test response"
  ∧ _extract_response_text Sample.payload_no_candidates = apology
  ∧ PyStr.nonempty apology = true.
Proof. split_and!; vm_compute; reflexivity. Qed.

(** C5. The code does not fall back to the apology on every malformed
    payload.  On [{"candidates": [{"content": {"parts": [{}]}}]}] the nested
    text is absent, yet [parts[0].get] supplies its default, the empty string:
    the [try] block returns it, no exception is raised for the handler to
    catch, and the result is the empty string instead of the apology.  The
    sibling shapes (no candidates, no parts, a text that is null) raise
    inside the [try] block and do give the apology. *)
Theorem textless_part_no_apology :
  nested_text Sample.payload_textless = None
  ∧ extract_response_text_try Sample.payload_textless = Ok ""
  ∧ _extract_response_text Sample.payload_textless = ""
  ∧ _extract_response_text Sample.payload_textless ≠ apology
  ∧ extract_response_text_try Sample.payload_no_candidates
    = Raise (ValueError "No candidates in response")
  ∧ _extract_response_text Sample.payload_no_candidates = apology
  ∧ extract_response_text_try Sample.payload_no_parts
    = Raise (ValueError "No parts in response")
  ∧ _extract_response_text Sample.payload_no_parts = apology
  ∧ extract_response_text_try Sample.payload_null_text
    = Raise (AttributeError "'NoneType' object has no attribute 'strip'")
  ∧ _extract_response_text Sample.payload_null_text = apology.
Proof. split_and!; vm_compute; (reflexivity || discriminate). Qed.

End ResponseTextFacts.

(** ** Extraction of product references *)

Module ReferenceFacts.
Import GeminiService Design.

(** The loop appends, in catalog order, the id of every item whose name is
    mentioned. *)
Lemma collect_references_spec (text_lower : string)
    (products : list (gmap string value)) (acc ids : list value) :
  collect_references text_lower products acc = Ok ids →
  Some <$> ids
  = (Some <$> acc)
    ++ ((λ p : gmap string value, p !! "id")
          <$> filter (λ p, is_Some (position_in text_lower p)) products).
Proof.
  revert acc. induction products as [|p rest IH]; intros acc Hrun.
  - injection Hrun as <-. by rewrite app_nil_r.
  - cbn [collect_references] in Hrun.
    assert (∀ name, Py.dict_get p "name" (VStr "") = VStr name →
              is_Some (position_in text_lower p)
              ↔ PyStr.nonempty (PyStr.lower name)
                && PyStr.contains (PyStr.lower name) text_lower = true) as Hpos.
    { intros name Hname. unfold position_in. rewrite Hname.
      destruct (PyStr.nonempty (PyStr.lower name)); cbn.
      - apply PyStrFacts.find_contains.
      - split; [by intros [? [=]] | done]. }
    destruct (Py.dict_get p "name" (VStr "")) as [ | | | |name| | ] eqn:Hname;
      try discriminate Hrun.
    specialize (Hpos name eq_refl). cbn in Hrun.
    destruct (PyStr.nonempty (PyStr.lower name)
              && PyStr.contains (PyStr.lower name) text_lower) eqn:Hcond.
    + unfold Py.dict_item in Hrun.
      destruct (p !! "id") as [id|] eqn:Hid; [| discriminate Hrun]. cbn in Hrun.
      rewrite (IH _ Hrun), filter_cons_True by by apply Hpos.
      rewrite fmap_app, !fmap_cons, Hid, <- app_assoc. done.
    + rewrite (IH _ Hrun), filter_cons_False; [done |].
      rewrite Hpos. done.
Qed.

Lemma extract_references_inv (ai_response : string)
    (products : list (gmap string value)) (ids : list value) :
  _extract_product_references ai_response products = Ok ids →
  ∃ all, ids = take 5 all
         ∧ Some <$> all
           = (λ p : gmap string value, p !! "id") <$> mentioned_items ai_response products.
Proof.
  unfold _extract_product_references. intros Hrun.
  destruct (collect_references (PyStr.lower ai_response) products []) as [all|] eqn:Hall;
    [| discriminate Hrun].
  injection Hrun as <-. exists all. split; [done |].
  by apply collect_references_spec in Hall.
Qed.

Lemma referenced_id_origin (ai_response : string)
    (products : list (gmap string value)) (ids : list value) (i : value) :
  _extract_product_references ai_response products = Ok ids →
  i ∈ ids →
  ∃ p, p ∈ products ∧ is_Some (mention_position ai_response p) ∧ p !! "id" = Some i.
Proof.
  intros (all & -> & Hall)%extract_references_inv Hin.
  apply elem_of_take in Hin as (n & Hn & _).
  assert (Some i ∈ Some <$> all) as Hsome.
  { apply list_elem_of_fmap. exists i. split; [done |]. by eapply list_elem_of_lookup_2. }
  rewrite Hall in Hsome. apply list_elem_of_fmap in Hsome as (p & Hid & Hp).
  apply list_elem_of_filter in Hp as [Hm Hp]. by exists p.
Qed.

Lemma empty_name_not_mentioned (response : string) (p : gmap string value) :
  p !! "name" = Some (VStr "") → mention_position response p = None.
Proof.
  intros Hname. unfold mention_position, position_in, Py.dict_get.
  by rewrite Hname.
Qed.

Lemma collect_references_skip (text_lower : string)
    (pre post : list (gmap string value)) (p : gmap string value) (acc : list value) :
  p !! "name" = Some (VStr "") →
  collect_references text_lower (pre ++ p :: post) acc
  = collect_references text_lower (pre ++ post) acc.
Proof.
  intros Hname. revert acc. induction pre as [|q pre IH]; intros acc.
  - cbn [app collect_references]. unfold Py.dict_get. by rewrite Hname.
  - cbn [app collect_references].
    destruct (Py.lower (Py.dict_get q "name" (VStr ""))) as [name|]; [| done].
    cbn. destruct (_ && _); [| apply IH].
    destruct (Py.dict_item q "id"); [| done]. cbn. apply IH.
Qed.

(** Extraction returns a list on every catalog of well-formed items. *)
Lemma extract_references_total (ai_response : string)
    (products : list (gmap string value)) :
  Forall catalog_item products →
  ∃ ids, _extract_product_references ai_response products = Ok ids.
Proof.
  intros Hwf. unfold _extract_product_references.
  assert (∀ acc, ∃ all,
            collect_references (PyStr.lower ai_response) products acc = Ok all) as Hall.
  { induction Hwf as [|p rest [[id Hid] [name Hname]] _ IH]; intros acc; [by eexists |].
    cbn [collect_references]. unfold Py.dict_get, Py.dict_item.
    rewrite Hname, Hid. cbn. destruct (_ && _); apply IH. }
  destruct (Hall []) as [all ->]. by eexists.
Qed.

(** C1, as amended.  The ids come in catalog order: the result is the ids of
    the first five catalog items, in the order of the catalog, whose
    non-empty lower-cased name occurs in the lower-cased response. *)
Theorem references_in_catalog_order (ai_response : string)
    (products : list (gmap string value)) (ids : list value) :
  _extract_product_references ai_response products = Ok ids →
  Some <$> ids
  = take 5 ((λ p : gmap string value, p !! "id")
              <$> mentioned_items ai_response products).
Proof.
  intros (all & -> & Hall)%extract_references_inv.
  by rewrite fmap_take, Hall.
Qed.

Lemma references_in_catalog_order_witness :
  Some <$> [VStr "b"; VStr "c"; VStr "d"; VStr "e"; VStr "f"]
  = take 5 ((λ p : gmap string value, p !! "id")
              <$> mentioned_items Sample.six_mentions Sample.seven).
Proof.
  apply (references_in_catalog_order Sample.six_mentions Sample.seven).
  vm_compute. reflexivity.
Defined.

(** C1 fails as stated: the result follows the catalog, not the order of
    first mention.  "Cap" is mentioned before "Mug" but listed after it, and
    of six mentioned items the one dropped is the last of the catalog, not
    the last mentioned. *)
Lemma references_not_in_mention_order :
  _extract_product_references Sample.cap_and_mug [Sample.mug; Sample.cap]
    = Ok [VStr "p1"; VStr "p2"]
  ∧ mention_position Sample.cap_and_mug Sample.mug = Some 12%nat
  ∧ mention_position Sample.cap_and_mug Sample.cap = Some 4%nat
  ∧ refs_by_first_mention Sample.cap_and_mug [Sample.mug; Sample.cap]
    = [VStr "p2"; VStr "p1"]
  ∧ _extract_product_references Sample.six_mentions Sample.seven
    = Ok [VStr "b"; VStr "c"; VStr "d"; VStr "e"; VStr "f"]
  ∧ refs_by_first_mention Sample.six_mentions Sample.seven
    = [VStr "g"; VStr "f"; VStr "e"; VStr "d"; VStr "c"]
  ∧ _extract_product_references Sample.cap_and_mug [Sample.mug; Sample.cap]
    ≠ Ok (refs_by_first_mention Sample.cap_and_mug [Sample.mug; Sample.cap])
  ∧ _extract_product_references Sample.six_mentions Sample.seven
    ≠ Ok (refs_by_first_mention Sample.six_mentions Sample.seven).
Proof. split_and!; vm_compute; (reflexivity || discriminate). Qed.

(** C4. Whenever extraction returns, and it does on every catalog of
    well-formed items, the list has at most five ids and each of them is the
    id of an item of the catalog it was given. *)
Theorem references_bounded_subset (ai_response : string)
    (products : list (gmap string value)) :
  (Forall catalog_item products →
   ∃ ids, _extract_product_references ai_response products = Ok ids)
  ∧ ∀ ids, _extract_product_references ai_response products = Ok ids →
      (length ids ≤ 5)%nat
      ∧ ∀ i, i ∈ ids → ∃ p, p ∈ products ∧ p !! "id" = Some i.
Proof.
  split; [apply extract_references_total |].
  intros ids Hrun. split.
  - apply extract_references_inv in Hrun as (all & -> & _).
    rewrite length_take. lia.
  - intros i Hin.
    destruct (referenced_id_origin _ _ _ _ Hrun Hin) as (p & Hp & _ & Hid).
    by exists p.
Qed.

Lemma references_bounded_subset_witness :
  (length [VStr "b"; VStr "c"; VStr "d"; VStr "e"; VStr "f"] ≤ 5)%nat
  ∧ ∀ i, i ∈ [VStr "b"; VStr "c"; VStr "d"; VStr "e"; VStr "f"] →
      ∃ p, p ∈ Sample.seven ∧ p !! "id" = Some i.
Proof.
  apply (proj2 (references_bounded_subset Sample.six_mentions Sample.seven)).
  vm_compute. reflexivity.
Defined.

(** C10. A catalog item whose name is the empty string is never included:
    the result is the same as without the item, and its id is not in the
    result unless another item carries the same id. *)
Theorem empty_name_never_referenced (ai_response : string)
    (pre post : list (gmap string value)) (p : gmap string value) :
  p !! "name" = Some (VStr "") →
  _extract_product_references ai_response (pre ++ p :: post)
  = _extract_product_references ai_response (pre ++ post)
  ∧ ∀ ids i,
      _extract_product_references ai_response (pre ++ p :: post) = Ok ids →
      p !! "id" = Some i →
      (∀ q, q ∈ pre ++ post → q !! "id" ≠ Some i) →
      i ∉ ids.
Proof.
  intros Hname. split.
  - unfold _extract_product_references. by rewrite collect_references_skip.
  - intros ids i Hrun Hid Hfresh Hin.
    destruct (referenced_id_origin _ _ _ _ Hrun Hin) as (q & Hq & Hm & Hqid).
    apply elem_of_app in Hq as [Hq | Hq].
    + apply (Hfresh q); [set_solver | done].
    + apply elem_of_cons in Hq as [-> | Hq].
      * rewrite (empty_name_not_mentioned _ _ Hname) in Hm. by destruct Hm.
      * apply (Hfresh q); [set_solver | done].
Qed.

Lemma empty_name_never_referenced_witness :
  _extract_product_references Sample.cap_and_mug [Sample.mug; Sample.unnamed; Sample.cap]
  = _extract_product_references Sample.cap_and_mug [Sample.mug; Sample.cap].
Proof.
  apply (empty_name_never_referenced Sample.cap_and_mug [Sample.mug] [Sample.cap]
           Sample.unnamed).
  vm_compute. reflexivity.
Defined.

End ReferenceFacts.

(** ** Prompt composition and the pipeline *)

Module PipelineFacts.
Import Pipeline.

Section WithRuntime.
Variable render : value → string.

(** The transcript ends with the customer line and the cue. *)
Lemma build_prompt_shape (customer_message system_prompt : string)
    (conversation_history : option (list (gmap string value))) :
  ∃ head, _build_prompt render customer_message system_prompt conversation_history
          = head +:+ PyStr.newline +:+ (PyStr.newline +:+ "Customer: " +:+ customer_message)
                 +:+ PyStr.newline +:+ "Assistant:".
Proof.
  unfold _build_prompt.
  set (parts := match conversation_history with
                | Some (m :: ms) => _
                | _ => _
                end).
  assert (parts ≠ []) as Hparts.
  { subst parts. by destruct conversation_history as [[|? ?]|]. }
  exists (PyStr.join PyStr.newline parts).
  rewrite PyStrFacts.join_snoc by (by destruct parts).
  rewrite PyStrFacts.join_snoc by done.
  by rewrite !PyStrFacts.app_assoc.
Qed.

(** C8. The composed transcript contains the customer message verbatim and
    ends with the cue "Assistant:". *)
Theorem prompt_contains_message (customer_message system_prompt : string)
    (conversation_history : option (list (gmap string value))) :
  (∃ before after,
     _build_prompt render customer_message system_prompt conversation_history
     = before +:+ customer_message +:+ after)
  ∧ (∃ before,
       _build_prompt render customer_message system_prompt conversation_history
       = before +:+ "Assistant:")
  ∧ PyStr.contains customer_message
      (_build_prompt render customer_message system_prompt conversation_history) = true.
Proof.
  destruct (build_prompt_shape customer_message system_prompt conversation_history)
    as [head Hshape].
  assert (∃ before after,
     _build_prompt render customer_message system_prompt conversation_history
     = before +:+ customer_message +:+ after) as Hsub.
  { exists (head +:+ PyStr.newline +:+ PyStr.newline +:+ "Customer: "),
           (PyStr.newline +:+ "Assistant:").
    rewrite Hshape. by rewrite !PyStrFacts.app_assoc. }
  split_and!; [done | | by apply PyStrFacts.contains_spec].
  exists (head +:+ PyStr.newline +:+ (PyStr.newline +:+ "Customer: " +:+ customer_message)
               +:+ PyStr.newline).
  rewrite Hshape. by rewrite !PyStrFacts.app_assoc.
Qed.

(** Whatever [Exception] is raised inside [generate_response], the caller
    sees the same wrapping exception, with the text of the cause in its
    details. *)
Lemma generate_response_raises_wrapped (w : world) (user_id customer_message : string)
    (conversation_history : option (list (gmap string value))) (e : exn) :
  generate_response render w user_id customer_message conversation_history = Raise e →
  Py.is_exception e = true →
  ∃ cause, e = new_ExternalAPIException "Failed to generate AI response" (Some "gemini")
                 (Some {[ "error" := VStr cause ]}).
Proof.
  unfold generate_response.
  destruct (generate_response_try _ _ _ _ _) as [r|cause]; [done |].
  destruct (Py.is_exception cause) eqn:Hcause.
  - intros [= <-] _. by eexists.
  - intros [= <-] He. by rewrite Hcause in He.
Qed.

(** C6. When the provider call times out, [generate_response] raises an
    [ExternalAPIException] that carries the cause, and returns no result. *)
Theorem timeout_is_fatal (w : world) (user_id customer_message : string)
    (conversation_history : option (list (gmap string value)))
    (ctx : context) (prompt : string) :
  transcript render w user_id customer_message conversation_history = Ok (ctx, prompt) →
  post w prompt = HttpTimeout →
  _call_gemini_api w prompt
  = Raise (new_ExternalAPIException "Gemini API request timed out" (Some "gemini") None)
  ∧ generate_response render w user_id customer_message conversation_history
    = Raise (new_ExternalAPIException "Failed to generate AI response" (Some "gemini")
               (Some {[ "error" := VStr "Gemini API request timed out" ]}))
  ∧ ∀ r, generate_response render w user_id customer_message conversation_history ≠ Ok r.
Proof.
  intros Hprompt Htimeout.
  assert (_call_gemini_api w prompt
          = Raise (new_ExternalAPIException "Gemini API request timed out"
                     (Some "gemini") None)) as Hcall.
  { unfold _call_gemini_api. by rewrite Htimeout. }
  assert (generate_response render w user_id customer_message conversation_history
          = Raise (new_ExternalAPIException "Failed to generate AI response" (Some "gemini")
               (Some {[ "error" := VStr "Gemini API request timed out" ]}))) as Hgen.
  { unfold generate_response, generate_response_try.
    rewrite Hprompt. cbn. by rewrite Hcall. }
  split_and!; [done | done |]. intros r. by rewrite Hgen.
Qed.

End WithRuntime.

Lemma timeout_is_fatal_witness :
  generate_response Sample.render Sample.store "u1"
    "Do you have wireless headphones?" (Some [Sample.turn "Hi" "Hello!"])
  = Raise (new_ExternalAPIException "Failed to generate AI response" (Some "gemini")
             (Some {[ "error" := VStr "Gemini API request timed out" ]})).
Proof.
  eapply (timeout_is_fatal Sample.render Sample.store "u1"
            "Do you have wireless headphones?" (Some [Sample.turn "Hi" "Hello!"])).
  - vm_compute. reflexivity.
  - reflexivity.
Defined.

End PipelineFacts.

(** ** The repository's tests and the end-to-end scenarios, replayed *)

Module Replay.
Import GeminiService.

Example test_intent_detection_product_inquiry :
  _detect_intent "Do you have wireless headphones?" "Yes, we have several models..."
  = "product_inquiry".
Proof. vm_compute. reflexivity. Qed.

Example test_intent_detection_order_lookup :
  _detect_intent "Where is my order ORD-12345?" "Let me look that up..."
  = "order_lookup".
Proof. vm_compute. reflexivity. Qed.

Example test_product_reference_extraction :
  _extract_product_references "We have Wireless Headphones available for $129.99"
    [Sample.headphones; Sample.watch]
  = Ok [VStr "123"].
Proof. vm_compute. reflexivity. Qed.

Example extract_text_of_test_payload :
  _extract_response_text Sample.payload_ok = "This is a test response".
Proof. vm_compute. reflexivity. Qed.

Example shipping_question_reachable :
  _detect_intent "Do you ship to Canada?" "" = "shipping_question".
Proof. vm_compute. reflexivity. Qed.

Example scenario_A :
  let w := {| get_user_by_id := get_user_by_id Sample.store;
              get_products := λ _ _, [Sample.product "p1" "Wireless Headphones"];
              post := λ _, HttpReturned 200 (Ok (Sample.payload_of_part
                        (VDict {[ "text" := VStr "Yes! We have Wireless Headphones in stock." ]})));
              elapsed_ms := 1523 |} in
  Pipeline.generate_response Sample.render w "S1" "Do you have wireless headphones?" None
  = Ok {| ai_response := "Yes! We have Wireless Headphones in stock.";
          intent_detected := "product_inquiry";
          products_referenced := [VStr "p1"];
          response_time_ms := 1523 |}.
Proof. vm_compute. reflexivity. Qed.

Example cancellation_is_not_wrapped :
  Pipeline._call_gemini_api (world_of Fixture.cancelled) "any prompt" = Raise CancelledError
  ∧ Pipeline.generate_response Sample.render (world_of Fixture.cancelled) "u1" "Hello" None
    = Raise CancelledError
  ∧ run (ChatRouter.send_message Sample.render Fixture.parse_float Fixture.cancelled
           Fixture.request "u1") []
    = ([], Raise CancelledError).
Proof. split_and!; vm_compute; reflexivity. Qed.

Example connection_failure_is_wrapped :
  Pipeline._call_gemini_api (world_of Fixture.unreachable) "any prompt"
  = Raise (new_ExternalAPIException "Failed to call Gemini API" (Some "gemini")
             (Some {[ "error" := VStr "connection reset" ]})).
Proof. vm_compute. reflexivity. Qed.

Example float_of_small_int :
  Py.float_of_int 20 = Ok (VFloat 20 1)
  ∧ Py.float_of_int (2 ^ 53) = Ok (VFloat (2 ^ 53) 1)
  ∧ Py.float_of_int (- (2 ^ 53)) = Ok (VFloat (- (2 ^ 53)) 1).
Proof. split_and!; vm_compute; reflexivity. Qed.

Example float_of_long_int_rounds :
  Py.float_of_int (2 ^ 53 + 1) = Ok (VFloat (2 ^ 53) 1)
  ∧ Py.float_of_int (2 ^ 53 + 3) = Ok (VFloat (2 ^ 53 + 4) 1)
  ∧ Py.float_of_int (2 ^ 54 + 3) = Ok (VFloat (2 ^ 54 + 4) 1)
  ∧ Py.float_of_int (- (2 ^ 53 + 3)) = Ok (VFloat (- (2 ^ 53 + 4)) 1)
  ∧ Py.float_of_int (2 ^ 1024 - 2 ^ 970 - 1) = Ok (VFloat (2 ^ 1024 - 2 ^ 971) 1).
Proof. split_and!; vm_compute; reflexivity. Qed.

Example float_of_huge_int_raises :
  Py.float_of_int (2 ^ 1024)
  = Raise (OverflowError "int too large to convert to float")
  ∧ Py.float_of_int (2 ^ 1024 - 2 ^ 970)
    = Raise (OverflowError "int too large to convert to float")
  ∧ Py.float_of_int (- (2 ^ 2000))
    = Raise (OverflowError "int too large to convert to float").
Proof. split_and!; vm_compute; reflexivity. Qed.

Example last_five_turns :
  Pipeline.last5 [1; 2; 3; 4; 5; 6; 7] = [3; 4; 5; 6; 7]
  ∧ Pipeline.last5 [1; 2] = [1; 2].
Proof. split; reflexivity. Qed.

End Replay.

(** ** More on strings *)

Module PyStrMore.
Import PyStr PyStrFacts.

Lemma lower_char_idem (c : ascii) : lower_char (lower_char c) = lower_char c.
Proof. destruct c as [[] [] [] [] [] [] [] []]; reflexivity. Qed.

Lemma lower_idem (s : string) : lower (lower s) = lower s.
Proof.
  induction s as [|c s IH]; [done |].
  cbn [lower]. by rewrite lower_char_idem, IH.
Qed.

Lemma lower_app (a b : string) : lower (a +:+ b) = lower a +:+ lower b.
Proof.
  induction a as [|c a IH]; [done |].
  rewrite app_cons. cbn [lower]. by rewrite IH, app_cons.
Qed.

Lemma contains_refl (s : string) : contains s s = true.
Proof. apply contains_spec. exists "", "". symmetry. apply (app_empty_r s). Qed.

Lemma contains_trans (a b c : string) :
  contains a b = true → contains b c = true → contains a c = true.
Proof.
  rewrite !contains_spec. intros (x & y & ->) (u & v & ->).
  exists (u +:+ x), (y +:+ v). by rewrite !app_assoc.
Qed.

Lemma contains_embed (n h before after : string) :
  contains n h = true → contains n (before +:+ h +:+ after) = true.
Proof.
  intros Hc. apply (contains_trans _ h); [done |].
  apply contains_spec. by exists before, after.
Qed.

Lemma app_nil_inv (a b : string) : a +:+ b = "" → a = "" ∧ b = "".
Proof.
  destruct a as [|c a]; intros H.
  - by split.
  - rewrite app_cons in H. discriminate H.
Qed.

Lemma contains_in_empty (n : string) : contains n "" = true → n = "".
Proof.
  intros (a & b & Hab)%contains_spec. symmetry in Hab.
  apply app_nil_inv in Hab as [_ Hab]. by apply app_nil_inv in Hab as [-> _].
Qed.

Lemma any_in_embed (keywords : list string) (h before after : string) :
  any_in keywords h = true → any_in keywords (before +:+ h +:+ after) = true.
Proof.
  rewrite !any_in_true. intros (kw & Hin & Hc). exists kw.
  split; [done |]. by apply contains_embed.
Qed.

Lemma lstrip_head (s : string) :
  match lstrip s with
  | EmptyString => True
  | String c _ => is_space c = false
  end.
Proof.
  induction s as [|c s IH]; [done |]. cbn [lstrip].
  destruct (is_space c) eqn:E; [exact IH | exact E].
Qed.

Lemma lstrip_fixed (s : string) :
  match s with
  | EmptyString => True
  | String c _ => is_space c = false
  end → lstrip s = s.
Proof. destruct s as [|c s]; [done |]. cbn [lstrip]. by intros ->. Qed.

Lemma rstrip_head (s : string) :
  match s with
  | EmptyString => True
  | String c _ => is_space c = false
  end →
  match rstrip s with
  | EmptyString => True
  | String c _ => is_space c = false
  end.
Proof.
  destruct s as [|c s]; [done |]. cbn [rstrip]. intros Hc.
  destruct (rstrip s); [by rewrite Hc | done].
Qed.

Lemma rstrip_idem (s : string) : rstrip (rstrip s) = rstrip s.
Proof.
  induction s as [|c s IH]; [done |]. cbn [rstrip].
  destruct (rstrip s) as [|d r] eqn:E.
  - destruct (is_space c) eqn:Hc; [done |]. cbn [rstrip]. by rewrite Hc.
  - change (rstrip (String c (String d r)))
      with (match rstrip (String d r) with
            | EmptyString => if is_space c then EmptyString else String c EmptyString
            | x => String c x
            end).
    by rewrite IH.
Qed.

(** [strip] leaves nothing to strip. *)
Lemma strip_idem (s : string) : strip (strip s) = strip s.
Proof.
  unfold strip.
  rewrite (lstrip_fixed (rstrip (lstrip s))).
  - apply rstrip_idem.
  - apply rstrip_head, lstrip_head.
Qed.

End PyStrMore.

(** ** More on intent detection *)

Module IntentMore.
Import GeminiService PyStrFacts PyStrMore.

Lemma order_lookup_iff (customer_message ai_response : string) :
  _detect_intent customer_message ai_response = MessageIntent.ORDER_LOOKUP
  ↔ PyStr.any_in order_keywords (PyStr.lower customer_message) = true.
Proof.
  unfold _detect_intent.
  destruct (PyStr.any_in order_keywords (PyStr.lower customer_message));
    [by split |].
  repeat case_match; split; done.
Qed.

Lemma general_question_iff (customer_message ai_response : string) :
  _detect_intent customer_message ai_response = MessageIntent.GENERAL_QUESTION
  ↔ ∀ keywords,
      keywords ∈ [order_keywords; product_keywords; return_keywords; shipping_keywords] →
      PyStr.any_in keywords (PyStr.lower customer_message) = false.
Proof.
  unfold _detect_intent. split.
  - intros H keywords Hk.
    destruct (PyStr.any_in order_keywords _) eqn:E1; [done |].
    destruct (PyStr.any_in product_keywords _) eqn:E2; [done |].
    destruct (PyStr.any_in return_keywords _) eqn:E3; [done |].
    destruct (PyStr.any_in shipping_keywords _) eqn:E4; [done |].
    rewrite !elem_of_cons, elem_of_nil in Hk.
    destruct Hk as [-> | [-> | [-> | [-> | []]]]]; done.
  - intros H. rewrite !H; [done | set_solver..].
Qed.

(** X1. Detection looks only at the lower-cased customer message: changing
    the case of the message or replacing the AI response does not change
    the intent. *)
Theorem intent_ignores_case_and_response (customer_message ai_response other : string) :
  _detect_intent (PyStr.lower customer_message) other
  = _detect_intent customer_message ai_response.
Proof. unfold _detect_intent. by rewrite lower_idem. Qed.

(** X2. The keyword sets form a decision list: each label is returned
    exactly when its own set matches the lower-cased message and no earlier
    set does. *)
Theorem intent_precedence (customer_message ai_response : string) :
  let text := PyStr.lower customer_message in
  let intent := _detect_intent customer_message ai_response in
  (intent = MessageIntent.ORDER_LOOKUP ↔ PyStr.any_in order_keywords text = true)
  ∧ (intent = MessageIntent.PRODUCT_INQUIRY ↔
       PyStr.any_in order_keywords text = false
       ∧ PyStr.any_in product_keywords text = true)
  ∧ (intent = MessageIntent.RETURN_REQUEST ↔
       PyStr.any_in order_keywords text = false
       ∧ PyStr.any_in product_keywords text = false
       ∧ PyStr.any_in return_keywords text = true)
  ∧ (intent = MessageIntent.SHIPPING_QUESTION ↔
       PyStr.any_in order_keywords text = false
       ∧ PyStr.any_in product_keywords text = false
       ∧ PyStr.any_in return_keywords text = false
       ∧ PyStr.any_in shipping_keywords text = true)
  ∧ (intent = MessageIntent.GENERAL_QUESTION ↔
       PyStr.any_in order_keywords text = false
       ∧ PyStr.any_in product_keywords text = false
       ∧ PyStr.any_in return_keywords text = false
       ∧ PyStr.any_in shipping_keywords text = false).
Proof.
  cbv zeta. unfold _detect_intent.
  destruct (PyStr.any_in order_keywords _), (PyStr.any_in product_keywords _),
    (PyStr.any_in return_keywords _), (PyStr.any_in shipping_keywords _);
    split_and!; split; (done || (intros; destruct_and?; done)).
Qed.

(** X3. Three keywords never decide anything: "tracking" is covered by
    "track", and "shipping" and "delivery time" by "ship" and "deliver". *)
Theorem redundant_keywords (text : string) :
  PyStr.any_in order_keywords text
  = PyStr.any_in ["order"; "track"; "delivery"; "shipped"; "where is"] text
  ∧ PyStr.any_in shipping_keywords text = PyStr.any_in ["ship"; "deliver"] text.
Proof.
  assert (PyStr.contains "tracking" text = true → PyStr.contains "track" text = true) as H1
    by apply (contains_part "" "track" "ing").
  assert (PyStr.contains "shipping" text = true → PyStr.contains "ship" text = true) as H2
    by apply (contains_part "" "ship" "ping").
  assert (PyStr.contains "delivery time" text = true → PyStr.contains "deliver" text = true)
    as H3 by apply (contains_part "" "deliver" "y time").
  unfold PyStr.any_in, order_keywords, shipping_keywords. cbn [existsb].
  destruct (PyStr.contains "tracking" text), (PyStr.contains "track" text),
    (PyStr.contains "shipping" text), (PyStr.contains "ship" text),
    (PyStr.contains "delivery time" text), (PyStr.contains "deliver" text);
    try (by specialize (H1 eq_refl)); try (by specialize (H2 eq_refl));
    try (by specialize (H3 eq_refl));
    rewrite ?orb_true_r, ?orb_false_r; cbn; split; reflexivity || (by rewrite ?orb_true_r).
Qed.

(** X4. Surrounding text cannot take an order-lookup classification away,
    and when a whole message is a general question, so is each of its
    parts. *)
Theorem intent_under_embedding (message before after a1 a2 : string) :
  (_detect_intent message a1 = MessageIntent.ORDER_LOOKUP →
   _detect_intent (before +:+ message +:+ after) a2 = MessageIntent.ORDER_LOOKUP)
  ∧ (_detect_intent (before +:+ message +:+ after) a2 = MessageIntent.GENERAL_QUESTION →
     _detect_intent message a1 = MessageIntent.GENERAL_QUESTION).
Proof.
  rewrite !order_lookup_iff, !general_question_iff, !lower_app. split.
  - apply any_in_embed.
  - intros H keywords Hk. apply not_true_iff_false. intros Hin.
    apply (any_in_embed _ _ (PyStr.lower before) (PyStr.lower after)) in Hin.
    by rewrite (H keywords Hk) in Hin.
Qed.

Lemma intent_under_embedding_witness :
  _detect_intent "Hi, where is my parcel? Thanks" "" = MessageIntent.ORDER_LOOKUP.
Proof.
  apply (proj1 (intent_under_embedding "where is" "Hi, " " my parcel? Thanks" "" "")).
  vm_compute. reflexivity.
Defined.

End IntentMore.

(** ** More on reference extraction *)

Module ReferenceMore.
Import GeminiService Design ReferenceFacts.

Lemma mentioned_iff (response : string) (p : gmap string value) (name : string) :
  p !! "name" = Some (VStr name) →
  is_Some (mention_position response p)
  ↔ name ≠ "" ∧ PyStr.contains (PyStr.lower name) (PyStr.lower response) = true.
Proof.
  intros Hname. unfold mention_position, position_in, Py.dict_get.
  rewrite Hname. cbn. rewrite PyStrFacts.nonempty_lower.
  destruct name as [|c name]; cbn.
  - split; [intros [? ?]; discriminate | by intros [? _]].
  - rewrite PyStrFacts.find_contains. cbn. split; [by intros ? | by intros [_ ?]].
Qed.

Lemma collect_references_app (text_lower : string)
    (ps qs : list (gmap string value)) (acc : list value) :
  collect_references text_lower (ps ++ qs) acc
  = collect_references text_lower ps acc ≫= collect_references text_lower qs.
Proof.
  revert acc. induction ps as [|p ps IH]; intros acc; [done |].
  cbn [app collect_references].
  destruct (Py.lower _) as [name|]; [| done]. cbn.
  destruct (_ && _); [| apply IH].
  destruct (Py.dict_item p "id"); [| done]. cbn. apply IH.
Qed.

Lemma collect_references_extends (text_lower : string)
    (ps : list (gmap string value)) (acc all : list value) :
  collect_references text_lower ps acc = Ok all → ∃ more, all = acc ++ more.
Proof.
  revert acc. induction ps as [|p ps IH]; intros acc Hrun.
  - injection Hrun as <-. exists []. by rewrite app_nil_r.
  - cbn [collect_references] in Hrun.
    destruct (Py.lower _) as [name|]; [| done]. cbn in Hrun.
    destruct (_ && _); [| by apply IH].
    destruct (Py.dict_item p "id") as [id|]; [| done]. cbn in Hrun.
    destruct (IH _ Hrun) as [more ->]. exists (id :: more).
    by rewrite <- app_assoc.
Qed.

Lemma collect_references_wf (text_lower : string)
    (ps : list (gmap string value)) (acc : list value) :
  Forall catalog_item ps → ∃ all, collect_references text_lower ps acc = Ok all.
Proof.
  intros Hwf. revert acc.
  induction Hwf as [|p rest [[id Hid] [name Hname]] _ IH]; intros acc; [by eexists |].
  cbn [collect_references]. unfold Py.dict_get, Py.dict_item.
  rewrite Hname, Hid. cbn. destruct (_ && _); apply IH.
Qed.

(** X5. Completeness below the cap: when fewer than five ids are returned,
    the id of every catalog item whose non-empty name occurs in the response
    (ignoring case) is among them. *)
Theorem references_complete_below_cap (ai_response : string)
    (products : list (gmap string value)) (ids : list value)
    (p : gmap string value) (name : string) (i : value) :
  _extract_product_references ai_response products = Ok ids →
  (length ids < 5)%nat →
  p ∈ products →
  p !! "name" = Some (VStr name) →
  name ≠ "" →
  PyStr.contains (PyStr.lower name) (PyStr.lower ai_response) = true →
  p !! "id" = Some i →
  i ∈ ids.
Proof.
  intros (all & -> & Hall)%extract_references_inv Hlen Hp Hname Hne Hc Hid.
  rewrite length_take in Hlen. rewrite take_ge by lia.
  assert (Some i ∈ Some <$> all) as Hin.
  { rewrite Hall. apply list_elem_of_fmap. exists p. split; [done |].
    apply list_elem_of_filter. split; [| done]. by apply (mentioned_iff _ _ name). }
  apply list_elem_of_fmap in Hin as (j & [= <-] & Hj). done.
Qed.

Lemma references_complete_below_cap_witness :
  VStr "p2" ∈ [VStr "p1"; VStr "p2"].
Proof.
  apply (references_complete_below_cap Sample.cap_and_mug [Sample.mug; Sample.cap]
           [VStr "p1"; VStr "p2"] Sample.cap "Cap" (VStr "p2")).
  - vm_compute. reflexivity.
  - cbn. lia.
  - set_solver.
  - vm_compute. reflexivity.
  - discriminate.
  - vm_compute. reflexivity.
  - vm_compute. reflexivity.
Defined.

(** X6. The result has no repeated id when the ids of the catalog are
    pairwise distinct (the extractor itself removes no duplicates). *)
Theorem references_distinct (ai_response : string)
    (products : list (gmap string value)) (ids : list value) :
  NoDup ((λ p : gmap string value, p !! "id") <$> products) →
  _extract_product_references ai_response products = Ok ids →
  NoDup ids.
Proof.
  intros Hnd (all & -> & Hall)%extract_references_inv.
  apply (NoDup_fmap_1 Some). rewrite fmap_take, Hall.
  eapply sublist_NoDup; [| apply sublist_take].
  eapply sublist_NoDup; [exact Hnd |].
  apply fmap_sublist, sublist_filter.
Qed.

Lemma references_distinct_witness :
  NoDup [VStr "b"; VStr "c"; VStr "d"; VStr "e"; VStr "f"].
Proof.
  apply (references_distinct Sample.six_mentions Sample.seven).
  - vm_compute.
    repeat (apply NoDup_cons_2;
            [rewrite ?elem_of_cons, elem_of_nil; intuition discriminate |]).
    apply NoDup_nil_2.
  - vm_compute. reflexivity.
Defined.

(** X7. Once five ids are found the rest of the catalog no longer matters:
    appending well-formed items to the catalog leaves the result as it
    was. *)
Theorem references_cap_ignores_tail (ai_response : string)
    (products more : list (gmap string value)) (ids : list value) :
  _extract_product_references ai_response products = Ok ids →
  length ids = 5%nat →
  Forall catalog_item more →
  _extract_product_references ai_response (products ++ more) = Ok ids.
Proof.
  unfold _extract_product_references. intros Hrun Hlen Hwf.
  destruct (collect_references (PyStr.lower ai_response) products []) as [all|] eqn:Hall;
    [| discriminate Hrun].
  injection Hrun as <-.
  rewrite collect_references_app, Hall. cbn.
  destruct (collect_references_wf (PyStr.lower ai_response) more all Hwf) as [all' Hall'].
  rewrite Hall'. cbn.
  destruct (collect_references_extends _ _ _ _ Hall') as [extra ->].
  rewrite length_take in Hlen. rewrite take_app_le by lia. done.
Qed.

Lemma references_cap_ignores_tail_witness :
  _extract_product_references Sample.six_mentions (Sample.seven ++ [Sample.mug])
  = Ok [VStr "b"; VStr "c"; VStr "d"; VStr "e"; VStr "f"].
Proof.
  apply (references_cap_ignores_tail Sample.six_mentions Sample.seven [Sample.mug]).
  - vm_compute. reflexivity.
  - reflexivity.
  - repeat constructor; [by eexists | by eexists].
Defined.

(** X8. A catalog row whose name is not a string (a null, a number) makes
    the extraction raise [AttributeError], whatever the response says and
    however many ids were already collected. *)
Theorem references_raise_on_bad_name (ai_response : string)
    (pre post : list (gmap string value)) (p : gmap string value) (v : value) :
  Forall catalog_item pre →
  p !! "name" = Some v →
  (∀ s, v ≠ VStr s) →
  _extract_product_references ai_response (pre ++ p :: post)
  = Raise (Py.no_attribute v "lower").
Proof.
  intros Hwf Hname Hv. unfold _extract_product_references.
  rewrite collect_references_app.
  destruct (collect_references_wf (PyStr.lower ai_response) pre [] Hwf) as [all ->].
  cbn. unfold Py.dict_get. rewrite Hname. cbn.
  destruct v; try done. by destruct (Hv s).
Qed.

Lemma references_raise_on_bad_name_witness :
  _extract_product_references "Hello"
    ([Sample.mug] ++ Fixture.nameless :: [Sample.cap])
  = Raise (AttributeError "'NoneType' object has no attribute 'lower'").
Proof.
  apply (references_raise_on_bad_name "Hello" [Sample.mug] [Sample.cap]
           Fixture.nameless VNone).
  - repeat constructor; by eexists.
  - vm_compute. reflexivity.
  - discriminate.
Defined.

(** X9. A mentioned catalog row without an id makes the extraction raise
    [KeyError], even when five ids were already collected before it. *)
Theorem references_raise_on_missing_id (ai_response : string)
    (pre post : list (gmap string value)) (p : gmap string value) (name : string) :
  Forall catalog_item pre →
  p !! "name" = Some (VStr name) →
  name ≠ "" →
  PyStr.contains (PyStr.lower name) (PyStr.lower ai_response) = true →
  p !! "id" = None →
  _extract_product_references ai_response (pre ++ p :: post) = Raise (KeyError "'id'").
Proof.
  intros Hwf Hname Hne Hc Hid. unfold _extract_product_references.
  rewrite collect_references_app.
  destruct (collect_references_wf (PyStr.lower ai_response) pre [] Hwf) as [all ->].
  cbn. unfold Py.dict_get, Py.dict_item. rewrite Hname, Hid. cbn.
  rewrite PyStrFacts.nonempty_lower, Hc. by destruct name.
Qed.

Lemma references_raise_on_missing_id_witness :
  _extract_product_references Sample.six_mentions
    (Sample.seven ++ Fixture.idless :: [])
  = Raise (KeyError "'id'").
Proof.
  apply (references_raise_on_missing_id Sample.six_mentions Sample.seven [] _ "golf").
  - repeat constructor; by eexists.
  - vm_compute. reflexivity.
  - discriminate.
  - vm_compute. reflexivity.
  - vm_compute. reflexivity.
Defined.

(** X10. An empty response references nothing: on a catalog of well-formed
    items the result is the empty list. *)
Theorem references_of_empty_response (products : list (gmap string value)) :
  Forall catalog_item products →
  _extract_product_references "" products = Ok [].
Proof.
  intros Hwf. destruct (extract_references_total "" products Hwf) as [ids Hrun].
  rewrite Hrun. f_equal. destruct ids as [|i ids]; [done |].
  destruct (referenced_id_origin _ _ _ i Hrun) as (p & Hp & Hm & _); [set_solver |].
  rewrite Forall_forall in Hwf. destruct (Hwf p Hp) as [_ [name Hname]].
  destruct (proj1 (mentioned_iff _ _ name Hname) Hm) as [Hne Hc].
  apply PyStrMore.contains_in_empty in Hc.
  destruct name as [|c name]; [done | discriminate Hc].
Qed.

Lemma references_of_empty_response_witness :
  _extract_product_references "" Sample.seven = Ok [].
Proof.
  apply (references_of_empty_response Sample.seven).
  repeat constructor; by eexists.
Defined.

End ReferenceMore.

(** ** More on the response text *)

Module ResponseTextMore.
Import GeminiService Design ResponseTextFacts.

(** X11. The returned text never begins or ends with white space: stripping
    it again changes nothing, on every payload. *)
Theorem response_text_is_stripped (response_data : value) :
  PyStr.strip (_extract_response_text response_data)
  = _extract_response_text response_data.
Proof.
  pose proof (extract_response_text_try_cases response_data) as H.
  unfold _extract_response_text.
  destruct (nested_text response_data).
  - rewrite H. apply PyStrMore.strip_idem.
  - destruct (textless_first_part response_data).
    + by rewrite H.
    + destruct H as [e ->]. vm_compute. reflexivity.
Qed.

(** X12. Only the first part of the first candidate is read: further
    candidates, further parts and every other entry of the payload are
    ignored. *)
Theorem response_text_reads_first_part (payload candidate content : gmap string value)
    (candidates parts : list value) (part : value) :
  payload !! "candidates" = Some (VList (VDict candidate :: candidates)) →
  candidate !! "content" = Some (VDict content) →
  content !! "parts" = Some (VList (part :: parts)) →
  _extract_response_text (VDict payload)
  = _extract_response_text (Sample.payload_of_part part).
Proof.
  intros Hc Hcontent Hparts.
  unfold _extract_response_text, extract_response_text_try, Sample.payload_of_part.
  cbn. unfold Py.dict_get.
  rewrite Hc, !lookup_singleton_eq. cbn. unfold Py.dict_get.
  rewrite Hcontent, !lookup_singleton_eq. cbn. unfold Py.dict_get.
  rewrite Hparts, !lookup_singleton_eq. cbn. done.
Qed.

Lemma response_text_reads_first_part_witness :
  _extract_response_text Fixture.two_parts
  = _extract_response_text (Sample.payload_of_part (VDict {[ "text" := VStr "Yes." ]})).
Proof.
  unfold Fixture.two_parts.
  eapply response_text_reads_first_part; vm_compute; reflexivity.
Defined.

End ResponseTextMore.

(** ** More on prompt composition *)

Module PromptMore.
Import Pipeline.

Lemma join_cons (sep x y : string) (l : list string) :
  PyStr.join sep (x :: y :: l) = x +:+ sep +:+ PyStr.join sep (y :: l).
Proof. reflexivity. Qed.

Lemma join_contains (sep x : string) (l : list string) :
  x ∈ l → PyStr.contains x (PyStr.join sep l) = true.
Proof.
  induction l as [|y l IH]; [by intros ?%elem_of_nil |].
  intros [-> | Hin]%elem_of_cons.
  - destruct l as [|z l]; [apply PyStrMore.contains_refl |].
    rewrite join_cons. apply PyStrFacts.contains_spec. by exists "", (sep +:+ PyStr.join sep (z :: l)).
  - destruct l as [|z l]; [by apply elem_of_nil in Hin |].
    rewrite join_cons.
    apply (PyStrMore.contains_trans _ (PyStr.join sep (z :: l))); [by apply IH |].
    apply PyStrFacts.contains_spec. exists (y +:+ sep), "".
    by rewrite PyStrFacts.app_empty_r, PyStrFacts.app_assoc.
Qed.

Lemma mapM_raise {A B} (f : A → result B) (l : list A) (x : A) (e : exn) :
  x ∈ l → f x = Raise e → ∃ e', mapM f l = Raise e'.
Proof.
  intros Hin Hx. induction l as [|y l IH]; [by apply elem_of_nil in Hin |].
  cbn. apply elem_of_cons in Hin as [<- | Hin].
  - rewrite Hx. by eexists.
  - destruct (f y); [| by eexists]. cbn.
    destruct (IH Hin) as [e' ->]. by eexists.
Qed.

Section WithRuntime.
Variable render : value → string.

(** X13. Without history, be it [None] or an empty list, the transcript is
    the system prompt, a blank line, the customer line and the cue; no
    history header is written. *)
Theorem prompt_without_history (customer_message system_prompt : string)
    (conversation_history : option (list (gmap string value))) :
  conversation_history = None ∨ conversation_history = Some [] →
  _build_prompt render customer_message system_prompt conversation_history
  = system_prompt +:+ PyStr.newline +:+ PyStr.newline +:+ "Customer: "
      +:+ customer_message +:+ PyStr.newline +:+ "Assistant:".
Proof.
  intros [-> | ->]; unfold _build_prompt; cbn [app];
    rewrite !join_cons; unfold PyStr.join; cbn [String.concat];
    by rewrite !PyStrFacts.app_assoc.
Qed.

(** X14. Only the last five turns of the history reach the transcript:
    older turns in front of them change nothing. *)
Theorem prompt_keeps_last_five (customer_message system_prompt : string)
    (older recent : list (gmap string value)) :
  length recent = 5%nat →
  _build_prompt render customer_message system_prompt (Some (older ++ recent))
  = _build_prompt render customer_message system_prompt (Some recent).
Proof.
  intros Hlen. unfold _build_prompt.
  assert (last5 (older ++ recent) = recent) as Hlast.
  { unfold last5. rewrite length_app, Hlen.
    replace (length older + 5 - 5)%nat with (length older) by lia.
    by rewrite drop_app_length. }
  assert (last5 recent = recent) as Hrecent.
  { unfold last5. rewrite Hlen. done. }
  destruct recent as [|r recent]; [done |].
  destruct (older ++ r :: recent) as [|m ms] eqn:E.
  { by destruct older. }
  rewrite Hlast, Hrecent. done.
Qed.

(** X15. Each of the last five turns is written into the transcript, as a
    customer line and an assistant line. *)
Theorem prompt_shows_recent_turns (customer_message system_prompt : string)
    (history : list (gmap string value)) (turn : gmap string value) :
  turn ∈ last5 history →
  PyStr.contains
    ("Customer: " +:+ format render (Py.dict_get turn "customer_message" (VStr "")))
    (_build_prompt render customer_message system_prompt (Some history)) = true
  ∧ PyStr.contains
      ("Assistant: " +:+ format render (Py.dict_get turn "ai_response" (VStr "")))
      (_build_prompt render customer_message system_prompt (Some history)) = true.
Proof.
  intros Hin. unfold _build_prompt.
  destruct history as [|m ms]; [by apply elem_of_nil in Hin |].
  assert (∀ line, line ∈ history_lines render turn →
            line ∈ concat (history_lines render <$> last5 (m :: ms))) as Hline.
  { intros line Hl. apply list_elem_of_In, in_concat.
    exists (history_lines render turn).
    split; apply list_elem_of_In; [| done]. apply list_elem_of_fmap. by exists turn. }
  split; apply join_contains; rewrite !elem_of_app; left; left; right; right;
    apply Hline; unfold history_lines; set_solver.
Qed.

End WithRuntime.

Lemma prompt_without_history_witness :
  _build_prompt Sample.render "Hi" "SYSTEM" (Some [])
  = "SYSTEM" +:+ PyStr.newline +:+ PyStr.newline +:+ "Customer: "
      +:+ "Hi" +:+ PyStr.newline +:+ "Assistant:".
Proof. apply prompt_without_history. by right. Defined.

Lemma prompt_keeps_last_five_witness :
  _build_prompt Sample.render "Q" "S" (Some ([Sample.turn "0" "z"] ++ Fixture.five_turns))
  = _build_prompt Sample.render "Q" "S" (Some Fixture.five_turns).
Proof. apply prompt_keeps_last_five. reflexivity. Defined.

Lemma prompt_shows_recent_turns_witness :
  PyStr.contains "Customer: Hi"
    (_build_prompt Sample.render "Q" "S" (Some [Sample.turn "Hi" "Hello!"])) = true.
Proof.
  apply (proj1 (prompt_shows_recent_turns Sample.render "Q" "S"
                  [Sample.turn "Hi" "Hello!"] (Sample.turn "Hi" "Hello!")
                  ltac:(vm_compute; apply list_elem_of_here))).
Defined.

End PromptMore.

(** ** More on the system prompt *)

Module SystemPromptMore.
Import Pipeline.

Lemma tone_lookup_unknown (s : string) :
  s ∉ ["friendly"; "professional"; "casual"; "energetic"] →
  tone_instructions !! s = None.
Proof.
  intros Hs. unfold tone_instructions.
  rewrite !lookup_insert_ne, lookup_singleton_ne; [done | ..];
    intros <-; apply Hs; set_solver.
Qed.

Section WithRuntime.
Variable render : value → string.

(** X16. With an empty catalog the system prompt is built without error for
    every tone that can be hashed, and it carries the line "No products
    available yet.". *)
Theorem system_prompt_no_products (user_id : string) (name tone : value) :
  (∀ l, tone ≠ VList l) → (∀ d, tone ≠ VDict d) →
  ∃ prompt,
    _build_system_prompt render user_id
      {| store_name := name; ai_tone := tone; products := [] |} = Ok prompt
    ∧ PyStr.contains "No products available yet." prompt = true.
Proof.
  intros Hl Hd. unfold _build_system_prompt. cbn [ai_tone products store_name].
  assert (∃ t, tone_instruction_for tone = Ok t) as [t ->].
  { destruct tone; cbn; eauto; [by destruct (Hl items) | by destruct (Hd entries)]. }
  cbn -[PyStr.join]. eexists. split; [done |].
  apply PromptMore.join_contains. set_solver.
Qed.

(** X17. A tone that is not one of the four known names, or not a string at
    all, gives the same system prompt as "friendly". *)
Theorem system_prompt_unknown_tone (user_id : string) (name tone : value)
    (catalog : list (gmap string value)) :
  match tone with
  | VStr s => s ∉ ["friendly"; "professional"; "casual"; "energetic"]
  | VList _ | VDict _ => False
  | _ => True
  end →
  _build_system_prompt render user_id
    {| store_name := name; ai_tone := tone; products := catalog |}
  = _build_system_prompt render user_id
      {| store_name := name; ai_tone := VStr "friendly"; products := catalog |}.
Proof.
  intros Htone. unfold _build_system_prompt. cbn [ai_tone products store_name].
  assert (tone_instruction_for tone = tone_instruction_for (VStr "friendly")) as ->; [| done].
  destruct tone; try done. cbn. by rewrite tone_lookup_unknown.
Qed.

(** X18. Only the first twenty products are rendered: the rest of the
    catalog has no effect on the system prompt, not even when a later row
    is broken. *)
Theorem system_prompt_first_twenty (user_id : string) (name tone : value)
    (catalog : list (gmap string value)) :
  _build_system_prompt render user_id
    {| store_name := name; ai_tone := tone; products := catalog |}
  = _build_system_prompt render user_id
      {| store_name := name; ai_tone := tone; products := take 20 catalog |}.
Proof.
  unfold _build_system_prompt. cbn [ai_tone products store_name].
  destruct catalog as [|p catalog]; [done |].
  change (take 20 (p :: catalog)) with (p :: take 19 catalog) at 2.
  cbv iota. by rewrite take_take.
Qed.

(** X19. A product among the first twenty that has no name or no price
    makes the construction of the system prompt raise. *)
Theorem system_prompt_missing_field (user_id : string) (name tone : value)
    (catalog : list (gmap string value)) (p : gmap string value) :
  p ∈ take 20 catalog →
  p !! "name" = None ∨ p !! "price" = None →
  ∃ e, _build_system_prompt render user_id
         {| store_name := name; ai_tone := tone; products := catalog |} = Raise e.
Proof.
  intros Hin Hmissing. unfold _build_system_prompt. cbn [ai_tone products store_name].
  destruct (tone_instruction_for tone); [| by eexists]. cbn.
  destruct catalog as [|q catalog]; [by apply elem_of_nil in Hin |].
  assert (∃ e, product_line render p = Raise e) as [e He].
  { unfold product_line, Py.dict_item.
    destruct Hmissing as [-> | Hprice]; [by eexists |].
    destruct (p !! "name"); [| by eexists]. cbn. rewrite Hprice. by eexists. }
  destruct (PromptMore.mapM_raise _ _ _ _ Hin He) as [e' ->]. by eexists.
Qed.

End WithRuntime.

Lemma system_prompt_no_products_witness :
  ∃ prompt,
    _build_system_prompt Sample.render "u1"
      {| store_name := VStr "S1"; ai_tone := VNone; products := [] |} = Ok prompt
    ∧ PyStr.contains "No products available yet." prompt = true.
Proof. apply system_prompt_no_products; discriminate. Defined.

Lemma system_prompt_unknown_tone_witness :
  _build_system_prompt Sample.render "u1"
    {| store_name := VStr "S1"; ai_tone := VStr "formal"; products := [Sample.mug] |}
  = _build_system_prompt Sample.render "u1"
      {| store_name := VStr "S1"; ai_tone := VStr "friendly"; products := [Sample.mug] |}.
Proof.
  apply system_prompt_unknown_tone.
  rewrite !elem_of_cons, elem_of_nil. intuition discriminate.
Defined.

Lemma system_prompt_missing_field_witness :
  ∃ e, _build_system_prompt Sample.render "u1"
         {| store_name := VStr "S1"; ai_tone := VStr "casual";
            products := [Sample.mug; Fixture.unpriced] |}
       = Raise e.
Proof.
  apply (system_prompt_missing_field Sample.render "u1" _ _ _ Fixture.unpriced).
  - cbn. apply list_elem_of_further, list_elem_of_here.
  - right. vm_compute. reflexivity.
Defined.

End SystemPromptMore.

(** ** More on the provider call and the pipeline *)

Module PipelineMore.
Import Pipeline GeminiService Design.

Lemma new_exception_service (message service : string) (details : option (gmap string value)) :
  service ≠ "" →
  ∃ d, new_ExternalAPIException message (Some service) details = ExternalAPIException message d
       ∧ d !! "service" = Some (VStr service)
       ∧ ∀ k, k ≠ "service" → d !! k = default ∅ details !! k.
Proof.
  intros Hs. unfold new_ExternalAPIException.
  destruct service as [|c service]; [done |]. cbn [PyStr.nonempty].
  eexists. split; [done |]. split; [apply lookup_insert_eq |].
  intros k Hk. by rewrite lookup_insert_ne.
Qed.



Lemma call_returns_body (w : world) (prompt : string) (data : value) :
  _call_gemini_api w prompt = Ok data
  ↔ ∃ status_code, post w prompt = HttpReturned status_code (Ok data).
Proof.
  unfold _call_gemini_api. split.
  - destruct (post w prompt) as [code [body|cause]|code text| |cause];
      try destruct (Py.is_exception cause); intros [= <-].
    by exists code.
  - by intros [code ->].
Qed.

Section WithRuntime.
Variable render : value → string.

Lemma build_context_products (w : world) (user_id : string) (ctx : context) :
  _build_context w user_id = Ok ctx → products ctx = get_products w user_id 100.
Proof.
  unfold _build_context. destruct (get_user_by_id w user_id) as [user|]; [| done].
  destruct (Py.truthy (VDict user)); [| done]. by intros [= <-].
Qed.

(** A result is returned only by the [try] block. *)
Lemma generate_response_returns (w : world) (user_id customer_message : string)
    (conversation_history : option (list (gmap string value))) (r : pipeline_result) :
  generate_response render w user_id customer_message conversation_history = Ok r →
  generate_response_try render w user_id customer_message conversation_history = Ok r.
Proof.
  unfold generate_response.
  destruct (generate_response_try _ _ _ _ _) as [r'|cause]; [done |].
  by destruct (Py.is_exception cause).
Qed.

(** What a returned result is made of. *)
Lemma generate_response_ok_inv (w : world) (user_id customer_message : string)
    (conversation_history : option (list (gmap string value))) (r : pipeline_result) :
  generate_response render w user_id customer_message conversation_history = Ok r →
  ∃ ctx prompt status_code data,
    transcript render w user_id customer_message conversation_history = Ok (ctx, prompt)
    ∧ post w prompt = HttpReturned status_code (Ok data)
    ∧ ai_response r = _extract_response_text data
    ∧ intent_detected r = _detect_intent customer_message (ai_response r)
    ∧ _extract_product_references (ai_response r) (products ctx)
      = Ok (products_referenced r)
    ∧ response_time_ms r = elapsed_ms w.
Proof.
  intros Hgen%generate_response_returns. revert Hgen. unfold generate_response_try.
  destruct (transcript render w user_id customer_message conversation_history)
    as [[ctx prompt]|]; [| done]. cbn.
  destruct (_call_gemini_api w prompt) as [data|] eqn:Hcall; [| done]. cbn.
  destruct (_extract_product_references _ (products ctx)) as [ids|] eqn:Hids; [| done].
  cbn. intros [= <-]. cbn.
  apply call_returns_body in Hcall as [code Hpost].
  by exists ctx, prompt, code, data.
Qed.

(** X21. Every result that [generate_response] returns is well formed: the
    intent is one of the five labels that detection can produce, there are
    at most five references, each the id of a product fetched for that user,
    and the response time is the measured one. *)
Theorem pipeline_result_invariants (w : world) (user_id customer_message : string)
    (conversation_history : option (list (gmap string value))) (r : pipeline_result) :
  generate_response render w user_id customer_message conversation_history = Ok r →
  intent_detected r ∈ intent_labels
  ∧ (length (products_referenced r) ≤ 5)%nat
  ∧ (∀ i, i ∈ products_referenced r →
       ∃ p, p ∈ get_products w user_id 100 ∧ p !! "id" = Some i)
  ∧ response_time_ms r = elapsed_ms w.
Proof.
  intros (ctx & prompt & code & data & Ht & _ & _ & Hi & Hrefs & Htime)%generate_response_ok_inv.
  assert (products ctx = get_products w user_id 100) as Hctx.
  { unfold transcript in Ht.
    destruct (_build_context w user_id) as [c|] eqn:Hc; [| done]. cbn in Ht.
    destruct (_build_system_prompt render user_id c); [| done].
    injection Ht as <- _. by apply build_context_products in Hc. }
  split_and!; [| | | done].
  - rewrite Hi. unfold _detect_intent, intent_labels. repeat case_match; set_solver.
  - apply ReferenceFacts.extract_references_inv in Hrefs as (all & -> & _).
    rewrite length_take. lia.
  - intros i Hin. rewrite <- Hctx.
    destruct (ReferenceFacts.referenced_id_origin _ _ _ _ Hrefs Hin) as (p & Hp & _ & Hid).
    by exists p.
Qed.

(** X22. When [generate_response] raises, its [try] block has raised some
    [cause].  If the cause is an [Exception], the caller gets an
    [ExternalAPIException] "Failed to generate AI response" whose details
    hold [str(cause)] under "error" and the service name, and nothing else:
    an HTTP status code recorded by [_call_gemini_api] is not passed on.  A
    cause that is not an [Exception] (a cancellation) reaches the caller as
    it is. *)
Theorem pipeline_failure_shape (w : world) (user_id customer_message : string)
    (conversation_history : option (list (gmap string value))) (e : exn) :
  generate_response render w user_id customer_message conversation_history = Raise e →
  ∃ cause,
    generate_response_try render w user_id customer_message conversation_history
    = Raise cause
    ∧ if Py.is_exception cause
      then ∃ details,
             e = ExternalAPIException "Failed to generate AI response" details
             ∧ details !! "error" = Some (VStr (Py.str_exn cause))
             ∧ details !! "service" = Some (VStr "gemini")
             ∧ details !! "status_code" = None
             ∧ ∀ k, k ≠ "error" → k ≠ "service" → details !! k = None
      else e = cause.
Proof.
  unfold generate_response.
  destruct (generate_response_try _ _ _ _ _) as [r|cause]; [done |].
  intros He. exists cause. split; [done |].
  destruct (Py.is_exception cause); [| by injection He].
  injection He as <-.
  destruct (new_exception_service "Failed to generate AI response" "gemini"
              (Some {[ "error" := VStr (Py.str_exn cause) ]})) as (d & -> & Hs & Hd);
    [done |].
  exists d. split_and!; [done | | done | |].
  - rewrite Hd by done. apply lookup_singleton_eq.
  - rewrite Hd by done. by apply lookup_singleton_ne.
  - intros k Hk Hk'. rewrite Hd by done. by apply lookup_singleton_ne.
Qed.

(** X23. A malformed provider payload does not abort the exchange: on a
    catalog of well-formed items the pipeline returns a result whose
    response is the apology, with the intent detected as usual. *)
Theorem pipeline_degrades_gracefully (w : world) (user_id customer_message : string)
    (conversation_history : option (list (gmap string value)))
    (ctx : context) (prompt : string) (status_code : Z) (data : value) :
  transcript render w user_id customer_message conversation_history = Ok (ctx, prompt) →
  post w prompt = HttpReturned status_code (Ok data) →
  nested_text data = None →
  textless_first_part data = false →
  Forall catalog_item (products ctx) →
  ∃ ids,
    generate_response render w user_id customer_message conversation_history
    = Ok {| ai_response := apology;
            intent_detected := _detect_intent customer_message apology;
            products_referenced := ids;
            response_time_ms := elapsed_ms w |}
    ∧ _extract_product_references apology (products ctx) = Ok ids.
Proof.
  intros Ht Hpost Hnone Hpart Hwf.
  pose proof (ResponseTextFacts.extract_response_text_try_cases data) as Hx.
  rewrite Hnone, Hpart in Hx. destruct Hx as [e He].
  destruct (ReferenceFacts.extract_references_total apology _ Hwf) as [ids Hids].
  exists ids. split; [| done].
  unfold generate_response, generate_response_try. rewrite Ht. cbn.
  unfold _call_gemini_api. rewrite Hpost. cbn.
  unfold _extract_response_text. rewrite He, Hids. done.
Qed.

(** X24. When the user is not found (no row, or an empty one) the pipeline
    fails with the text "User <id> not found" as its cause, whatever the
    provider would have answered. *)
Theorem pipeline_unknown_user (w : world) (user_id customer_message : string)
    (conversation_history : option (list (gmap string value))) :
  get_user_by_id w user_id = None ∨ get_user_by_id w user_id = Some ∅ →
  generate_response render w user_id customer_message conversation_history
  = Raise (new_ExternalAPIException "Failed to generate AI response" (Some "gemini")
             (Some {[ "error" := VStr ("User " +:+ user_id +:+ " not found") ]})).
Proof.
  intros Huser. unfold generate_response, generate_response_try, transcript, _build_context.
  by destruct Huser as [-> | ->].
Qed.

End WithRuntime.

Lemma pipeline_result_invariants_witness :
  intent_detected Fixture.answered ∈ intent_labels
  ∧ (length (products_referenced Fixture.answered) ≤ 5)%nat
  ∧ (∀ i, i ∈ products_referenced Fixture.answered →
       ∃ p, p ∈ get_products (world_of Fixture.answering) "u1" 100 ∧ p !! "id" = Some i)
  ∧ response_time_ms Fixture.answered = elapsed_ms (world_of Fixture.answering).
Proof.
  apply (pipeline_result_invariants Sample.render (world_of Fixture.answering) "u1"
           "Do you have wireless headphones?" None Fixture.answered).
  vm_compute. reflexivity.
Defined.

Lemma pipeline_failure_shape_witness :
  ∃ cause,
    generate_response_try Sample.render (world_of Fixture.refused) "u1" "Hello" None
    = Raise cause
    ∧ if Py.is_exception cause
      then ∃ details,
             new_ExternalAPIException "Failed to generate AI response" (Some "gemini")
               (Some {[ "error" := VStr "Gemini API returned an error" ]})
             = ExternalAPIException "Failed to generate AI response" details
             ∧ details !! "error" = Some (VStr (Py.str_exn cause))
             ∧ details !! "service" = Some (VStr "gemini")
             ∧ details !! "status_code" = None
             ∧ ∀ k, k ≠ "error" → k ≠ "service" → details !! k = None
      else new_ExternalAPIException "Failed to generate AI response" (Some "gemini")
             (Some {[ "error" := VStr "Gemini API returned an error" ]})
           = cause.
Proof.
  apply (pipeline_failure_shape Sample.render (world_of Fixture.refused) "u1" "Hello" None).
  vm_compute. reflexivity.
Defined.

Lemma pipeline_degrades_gracefully_witness :
  ∃ ids,
    generate_response Sample.render (world_of Fixture.garbled) "u1" "Hello" None
    = Ok {| ai_response := apology;
            intent_detected := _detect_intent "Hello" apology;
            products_referenced := ids;
            response_time_ms := elapsed_ms (world_of Fixture.garbled) |}
    ∧ _extract_product_references apology (products Fixture.shop_context) = Ok ids.
Proof.
  eapply (pipeline_degrades_gracefully Sample.render (world_of Fixture.garbled) "u1"
            "Hello" None Fixture.shop_context _ 200 Sample.payload_no_candidates).
  - vm_compute. reflexivity.
  - reflexivity.
  - vm_compute. reflexivity.
  - vm_compute. reflexivity.
  - repeat constructor; by eexists.
Defined.

Lemma pipeline_unknown_user_witness :
  generate_response Sample.render (world_of (Fixture.env_of Fixture.down HttpTimeout))
    "u1" "Hello" None
  = Raise (new_ExternalAPIException "Failed to generate AI response" (Some "gemini")
             (Some {[ "error" := VStr ("User " +:+ "u1" +:+ " not found") ]})).
Proof.
  apply pipeline_unknown_user. left. vm_compute. reflexivity.
Defined.

End PipelineMore.

(** ** The database wrapper, the analytics service and the chat router *)

Module RouterFacts.
Import Pipeline.

Lemma run_bind {A B} (m : io A) (f : A → io B) (log : list write) :
  run (m ≫= f) log
  = match run m log with
    | (log', Ok a) => run (f a) log'
    | (log', Raise e) => (log', Raise e)
    end.
Proof. reflexivity. Qed.

Lemma truthy_insert (k : string) (v : value) (m : gmap string value) :
  Py.truthy (VDict (<[k := v]> m)) = true.
Proof.
  cbn. destruct (map_to_list (<[k := v]> m)) eqn:E; [| done].
  apply map_to_list_empty_iff in E. by apply insert_non_empty in E.
Qed.

Lemma run_insert (c : client) (table : string) (data : gmap string value)
    (log : list write) :
  Py.truthy (VDict data) = true →
  run (Database.execute_query c table "insert" None (Some data) "*") log
  = (log ++ [Inserted table data], insert_row c table data).
Proof.
  intros Hdata. unfold Database.execute_query. cbn [String.eqb Ascii.eqb Bool.eqb].
  unfold Database.missing. by rewrite Hdata.
Qed.

Lemma run_select (c : client) (table : string) (filters : gmap string value)
    (log : list write) :
  run (Database.execute_query c table "select" (Some filters) None "*") log
  = (log, select_eq c table "*" filters).
Proof. reflexivity. Qed.

Lemma get_user_by_id_unfold (c : client) (user_id : string) :
  Database.get_user_by_id c user_id
  = match select_eq c "users" "*" {[ "id" := VStr user_id ]} with
    | Ok (user :: _) => Some user
    | _ => None
    end.
Proof.
  unfold Database.get_user_by_id, Io.outcome. rewrite run_select. cbn.
  by destruct (select_eq c "users" "*" _) as [[|? ?]|].
Qed.

(** X25. [execute_query] refuses an insert without data, an update without
    data or filters, a delete without filters and an unknown operation: it
    raises [ValueError] and nothing is sent to the database. *)
Theorem execute_query_refuses (c : client) (table operation : string)
    (filters data : option (gmap string value)) (columns : string) (log : list write) :
  (operation = "insert" ∧ Database.missing data = true)
  ∨ (operation = "update"
     ∧ (Database.missing data = true ∨ Database.missing filters = true))
  ∨ (operation = "delete" ∧ Database.missing filters = true)
  ∨ operation ∉ ["select"; "insert"; "update"; "delete"] →
  ∃ msg, run (Database.execute_query c table operation filters data columns) log
         = (log, Raise (ValueError msg)).
Proof.
  unfold Database.execute_query.
  intros [[-> Hd] | [[-> Hdf] | [[-> Hf] | Hop]]].
  - cbn [String.eqb Ascii.eqb Bool.eqb]. rewrite Hd. by eexists.
  - cbn [String.eqb Ascii.eqb Bool.eqb].
    assert (Database.missing data || Database.missing filters = true) as ->
      by (destruct Hdf as [-> | ->]; [done | apply orb_true_r]).
    by eexists.
  - cbn [String.eqb Ascii.eqb Bool.eqb]. rewrite Hf. by eexists.
  - assert (∀ s, s ∈ ["select"; "insert"; "update"; "delete"] →
                 String.eqb operation s = false) as Hne.
    { intros s Hs. apply String.eqb_neq. by intros ->. }
    rewrite !Hne by set_solver. by eexists.
Qed.

Lemma execute_query_refuses_witness :
  ∃ msg, run (Database.execute_query Fixture.shop "products" "delete" (Some ∅) None "*") []
         = ([], Raise (ValueError msg)).
Proof.
  apply execute_query_refuses. right. right. left. split; reflexivity.
Defined.

Section WithRuntime.
Variable render : value → string.

(** X26. A database that cannot be read, or that has no row for the user,
    makes the pipeline fail with the cause "User <id> not found": an outage
    is reported as a missing user. *)
Theorem outage_reads_as_unknown_user (e : env) (user_id customer_message : string)
    (conversation_history : option (list (gmap string value))) :
  (∃ x, select_eq (db e) "users" "*" {[ "id" := VStr user_id ]} = Raise x)
  ∨ select_eq (db e) "users" "*" {[ "id" := VStr user_id ]} = Ok [] →
  generate_response render (world_of e) user_id customer_message conversation_history
  = Raise (new_ExternalAPIException "Failed to generate AI response" (Some "gemini")
             (Some {[ "error" := VStr ("User " +:+ user_id +:+ " not found") ]})).
Proof.
  intros Hdb.
  unfold generate_response, generate_response_try, transcript, _build_context.
  cbn [world_of get_user_by_id]. rewrite get_user_by_id_unfold.
  by destruct Hdb as [[x ->] | ->].
Qed.

(** X27. A products table that cannot be read is not reported: the catalog
    is taken to be empty and the transcript tells the model that no products
    are available. *)
Theorem product_outage_is_silent (e : env) (user_id customer_message : string)
    (conversation_history : option (list (gmap string value)))
    (user : gmap string value) (others : list (gmap string value)) (x : exn) :
  select_eq (db e) "users" "*" {[ "id" := VStr user_id ]} = Ok (user :: others) →
  Py.truthy (VDict user) = true →
  match Py.dict_get user "ai_tone" (VStr "friendly") with
  | VList _ | VDict _ => False
  | _ => True
  end →
  select_range (db e) "products" user_id 0 99 = Raise x →
  ∃ ctx prompt,
    transcript render (world_of e) user_id customer_message conversation_history
    = Ok (ctx, prompt)
    ∧ products ctx = []
    ∧ PyStr.contains "No products available yet." prompt = true.
Proof.
  intros Huser Htruthy Htone Hproducts.
  unfold transcript, _build_context. cbn [world_of get_user_by_id get_products].
  rewrite get_user_by_id_unfold, Huser, Htruthy.
  unfold Database.get_products. cbn [Z.of_nat Pos.of_succ_nat Pos.succ Z.add Z.sub Z.opp Z.pos_sub Pos.pred_double].
  change (0 + Z.of_nat 100 - 1) with 99. rewrite Hproducts.
  cbn -[_build_system_prompt]. unfold _build_system_prompt.
  cbn [ai_tone products store_name].
  assert (∃ t, tone_instruction_for (Py.dict_get user "ai_tone" (VStr "friendly")) = Ok t)
    as [t ->].
  { destruct (Py.dict_get user "ai_tone" (VStr "friendly")); cbn; eauto; done. }
  cbn -[PyStr.join _build_prompt].
  match goal with |- context [_build_prompt _ _ ?s _] => set (sys := s) end.
  eexists _, _. split; [done |]. split; [done |].
  apply (PyStrMore.contains_trans _ sys).
  - subst sys. apply PromptMore.join_contains. set_solver.
  - unfold _build_prompt. apply PromptMore.join_contains.
    rewrite !elem_of_app. left. left.
    destruct conversation_history as [[|? ?]|]; set_solver.
Qed.

Variable parse_float : string → option (Z * positive).

Lemma collect_cards_reads_only (c : client) (product_ids products : list value)
    (log : list write) :
  ∃ outcome,
    run (ChatRouter.collect_cards parse_float c product_ids products) log = (log, outcome)
    ∧ ∀ cards, outcome = Ok cards →
        (length cards ≤ length products + length product_ids)%nat.
Proof.
  revert products. induction product_ids as [|product_id rest IH]; intros products.
  - eexists. split; [done |]. intros cards [= <-]. cbn. lia.
  - cbn [ChatRouter.collect_cards]. rewrite run_bind, run_select.
    destruct (select_eq c "products" "*" _) as [[|product found]|x].
    + destruct (IH products) as (outcome & -> & Hlen). eexists. split; [done |].
      intros cards Hc. specialize (Hlen cards Hc). cbn. lia.
    + rewrite run_bind. cbn [Io.lift run].
      destruct (ChatRouter.product_card parse_float product) as [card|x].
      * destruct (IH (products ++ [VDict card])) as (outcome & -> & Hlen).
        eexists. split; [done |]. intros cards Hc. specialize (Hlen cards Hc).
        rewrite length_app in Hlen. cbn in *. lia.
      * eexists. split; [done |]. done.
    + eexists. split; [done |]. done.
Qed.

(** X28. When the history cannot be read or the pipeline fails, the request
    fails with that very exception and nothing is written to the
    database. *)
Theorem send_message_failure_stores_nothing (e : env) (request : ChatMessageRequest.t)
    (current_user_id : string) (log : list write) (x : exn) :
  select_recent (db e) "conversations" current_user_id 5 = Raise x
  ∨ (∃ rows,
       select_recent (db e) "conversations" current_user_id 5 = Ok rows
       ∧ generate_response render (world_of e) current_user_id
           (ChatMessageRequest.message request) (ChatRouter.formatted_history rows)
         = Raise x) →
  run (ChatRouter.send_message render parse_float e request current_user_id) log
  = (log, Raise x).
Proof.
  unfold ChatRouter.send_message. rewrite run_bind. cbn [Io.lift run].
  intros [-> | (rows & -> & Hgen)]; [done |].
  rewrite run_bind. cbn [Io.lift run]. by rewrite Hgen.
Qed.

(** X29. When the pipeline returns, the conversation is stored first, with
    the response, the intent and all references; if storing it fails, that
    is the outcome and nothing else is written.  Otherwise one analytics
    event is written, whether or not that write succeeds, and a response
    carries at most three product cards. *)
Theorem send_message_stores_then_answers (e : env) (request : ChatMessageRequest.t)
    (current_user_id : string) (log : list write)
    (rows : list (gmap string value)) (r : pipeline_result) :
  select_recent (db e) "conversations" current_user_id 5 = Ok rows →
  generate_response render (world_of e) current_user_id
    (ChatMessageRequest.message request) (ChatRouter.formatted_history rows) = Ok r →
  let stored := ChatRouter.conversation_data request current_user_id rows r in
  match insert_row (db e) "conversations" stored with
  | Raise x =>
      run (ChatRouter.send_message render parse_float e request current_user_id) log
      = (log ++ [Inserted "conversations" stored], Raise x)
  | Ok _ =>
      ∃ event outcome,
        run (ChatRouter.send_message render parse_float e request current_user_id) log
        = (log ++ [Inserted "conversations" stored; Inserted "analytics_events" event],
           outcome)
        ∧ event !! "event_data" = Some (VDict (ChatRouter.event_data request r))
        ∧ ∀ response, outcome = Ok response →
            ∃ conversation_id cards,
              ChatMessageResponse.data response
              = ChatRouter.response_data request r conversation_id cards
              ∧ (length cards ≤ 3)%nat
              ∧ (length cards ≤ length (products_referenced r))%nat
  end.
Proof.
  intros Hrows Hgen stored.
  unfold ChatRouter.send_message. rewrite run_bind. cbn [Io.lift run]. rewrite Hrows.
  rewrite run_bind. cbn [Io.lift run]. rewrite Hgen.
  rewrite run_bind, run_insert by apply truthy_insert. fold stored.
  destruct (insert_row (db e) "conversations" stored) as [conversation_result|x]; [| done].
  rewrite run_bind.
  unfold AnalyticsService.log_event, Io.catch. cbn [run].
  rewrite run_bind, run_insert by apply truthy_insert.
  set (event := <[ "user_id" := _ ]> _).
  assert (event !! "event_data" = Some (VDict (ChatRouter.event_data request r))) as Hevent.
  { subst event. rewrite !lookup_insert_ne by done. rewrite lookup_insert_eq.
    unfold Database.missing, ChatRouter.event_data. by rewrite truthy_insert. }
  set (after := (log ++ [Inserted "conversations" stored])
                ++ [Inserted "analytics_events" event]).
  assert (after = log ++ [Inserted "conversations" stored;
                          Inserted "analytics_events" event]) as Hafter
    by (subst after; by rewrite <- List.app_assoc).
  match goal with
  | |- context [run (?m ≫= ?k) _] =>
      assert (∃ outcome,
                run (m ≫= k) after = (after, outcome)
                ∧ ∀ response, outcome = Ok response →
                    ∃ conversation_id cards,
                      ChatMessageResponse.data response
                      = ChatRouter.response_data request r conversation_id cards
                      ∧ (length cards ≤ 3)%nat
                      ∧ (length cards ≤ length (products_referenced r))%nat) as Htail
  end.
  { destruct (collect_cards_reads_only (db e) (take 3 (products_referenced r)) [] after)
      as (cards_outcome & Hcards & Hlen).
    rewrite run_bind, Hcards. destruct cards_outcome as [cards|x].
    2: { exists (Raise x). split; [reflexivity | intros ? [=]]. }
    rewrite run_bind. cbn [Io.lift run].
    destruct (match conversation_result with
              | [] => Ok VNone
              | row :: _ => Py.dict_item row "id"
              end) as [conversation_id|x].
    2: { exists (Raise x). split; [reflexivity | intros ? [=]]. }
    cbn [run mret io_ret]. eexists. split; [reflexivity |].
    intros response [= <-]. exists conversation_id, cards. split; [reflexivity |].
    specialize (Hlen cards eq_refl). rewrite length_take in Hlen.
    cbn [length Nat.add] in Hlen. lia. }
  destruct Htail as (outcome & Hrun & Hresponse).
  destruct (insert_row (db e) "analytics_events" event) as [logged|x];
    [| destruct (Py.is_exception x)].
  - exists event, outcome. rewrite <- Hafter.
    split; [exact Hrun | split; [exact Hevent | exact Hresponse]].
  - exists event, outcome. rewrite <- Hafter.
    split; [exact Hrun | split; [exact Hevent | exact Hresponse]].
  - exists event, (Raise x). rewrite <- Hafter.
    split; [reflexivity | split; [exact Hevent | intros ? [=]]].
Qed.

End WithRuntime.

Lemma outage_reads_as_unknown_user_witness :
  generate_response Sample.render (world_of (Fixture.env_of Fixture.down HttpTimeout))
    "u1" "Hello" None
  = Raise (new_ExternalAPIException "Failed to generate AI response" (Some "gemini")
             (Some {[ "error" := VStr ("User " +:+ "u1" +:+ " not found") ]})).
Proof.
  apply outage_reads_as_unknown_user. left. by eexists.
Defined.

Lemma product_outage_is_silent_witness :
  ∃ ctx prompt,
    transcript Sample.render
      (world_of (Fixture.env_of Fixture.shop_without_products HttpTimeout))
      "u1" "Hello" None = Ok (ctx, prompt)
    ∧ products ctx = []
    ∧ PyStr.contains "No products available yet." prompt = true.
Proof.
  apply (product_outage_is_silent Sample.render _ "u1" "Hello" None
           Fixture.user_row [] (OtherError "timeout")).
  - reflexivity.
  - vm_compute. reflexivity.
  - vm_compute. exact I.
  - reflexivity.
Defined.

Lemma send_message_failure_stores_nothing_witness :
  run (ChatRouter.send_message Sample.render Fixture.parse_float Fixture.timing_out
         Fixture.request "u1") []
  = ([], Raise (new_ExternalAPIException "Failed to generate AI response" (Some "gemini")
                  (Some {[ "error" := VStr "Gemini API request timed out" ]}))).
Proof.
  apply send_message_failure_stores_nothing. right.
  exists [Sample.turn "Hi" "Hello!"]. split; [reflexivity |].
  vm_compute. reflexivity.
Defined.

Lemma send_message_stores_then_answers_witness :
  ∃ event outcome,
    run (ChatRouter.send_message Sample.render Fixture.parse_float Fixture.answering
           Fixture.request "u1") []
    = ([] ++ [ Inserted "conversations"
                 (ChatRouter.conversation_data Fixture.request "u1"
                    [Sample.turn "Hi" "Hello!"] Fixture.answered);
               Inserted "analytics_events" event ],
       outcome)
    ∧ event !! "event_data"
      = Some (VDict (ChatRouter.event_data Fixture.request Fixture.answered))
    ∧ ∀ response, outcome = Ok response →
        ∃ conversation_id cards,
          ChatMessageResponse.data response
          = ChatRouter.response_data Fixture.request Fixture.answered conversation_id cards
          ∧ (length cards ≤ 3)%nat
          ∧ (length cards ≤ length (products_referenced Fixture.answered))%nat.
Proof.
  exact (send_message_stores_then_answers Sample.render Fixture.parse_float
           Fixture.answering Fixture.request "u1" [] [Sample.turn "Hi" "Hello!"]
           Fixture.answered eq_refl ltac:(vm_compute; reflexivity)).
Defined.

End RouterFacts.
